(** * geminiandvision: the PDF -> OCR -> Gemini pipeline of [index.py]

    A shallow embedding of [procesar_pdf_con_vision_y_gemini].  The function
    is sequential glue around library calls (PyMuPDF, Cloud Vision, requests),
    so the embedding has three layers:

    - [Py]: the Python values a decoded JSON body can hold, the exception
      classes the function names or can meet, and the few object operations
      the function applies to a decoded body ([.get], [x[0]], [x['content']],
      truth testing, [str.join]);
    - [Eff]: a writer/error monad: a computation yields the events it
      performed (lines printed, the document closed, the HTTP request sent)
      and either a value or a raised exception;
    - [Pipeline]: the function itself, block by block, over a [world] that
      says what each library call answers.

    What the embedding takes for granted: [print], the attribute reads on
    library objects, [range], [list.append] and the formatting of an
    f-string do not raise; a string is the sequence of its UTF-8 bytes.
    Any library call may raise, and which exception it raises is the
    world's.  The module-level code around the function (reading the API
    key, the example call) is not part of it; the key and the headers of
    the request, which are fixed, are not recorded in the [Post] event. *)

From Stdlib Require Import String Ascii List ZArith Bool Lia.
From Stdlib Require Import PrimFloat SpecFloat FloatOps DecimalString.
Import ListNotations.

#[local] Set Warnings "-register-all".
Local Open Scope string_scope.
Local Open Scope list_scope.

(* ================================================================== *)
(** ** Python values and exceptions *)
(* ================================================================== *)

Module Py.

(** What [Response.json()] can return: the image of a JSON text under
    Python's decoder. *)
Inductive pyval : Type :=
| PNone
| PBool (b : bool)
| PInt (n : Z)
| PFloat (x : float)
| PStr (s : string)
| PList (items : list pyval)
| PDict (entries : list (string * pyval)).

(** A decoded JSON object has string keys, each at most once; the entries
    are kept in insertion order (the order [str] prints them in). *)
Fixpoint dict_lookup (key : string) (entries : list (string * pyval)) : option pyval :=
  match entries with
  | [] => None
  | (k, v) :: rest => if String.eqb k key then Some v else dict_lookup key rest
  end.

(** Truth value testing, as in [if candidates:]. *)
Definition truthy (v : pyval) : bool :=
  match v with
  | PNone => false
  | PBool b => b
  | PInt n => negb (Z.eqb n 0)
  | PFloat x => negb (PrimFloat.eqb x 0%float)
  | PStr s => negb (String.eqb s "")
  | PList items => match items with [] => false | _ :: _ => true end
  | PDict entries => match entries with [] => false | _ :: _ => true end
  end.

(** Exception classes: the ones the function names in its handlers, the
    ones the interpreter raises on the operations it performs, and the
    bases that decide which handler matches. *)
Inductive pyclass : Type :=
| BaseException | Exception
| KeyboardInterrupt | SystemExit
| LookupError | KeyError | IndexError
| TypeError | AttributeError
| NameError | UnboundLocalError
| ValueError | JSONDecodeError
| RuntimeError | FitzFileNotFoundError
| OSError | RequestException | HTTPError | ConnectionError | Timeout
| InvalidJSONError | RequestsJSONDecodeError.

Definition pyclass_eq_dec (a b : pyclass) : {a = b} + {a <> b}.
Proof. decide equality. Defined.

Definition pyclass_eqb (a b : pyclass) : bool :=
  if pyclass_eq_dec a b then true else false.

(** Method resolution order of each class (the class first).
    [FitzFileNotFoundError] is [fitz.fitz.FileNotFoundError];
    [JSONDecodeError] is [json.JSONDecodeError];
    [RequestsJSONDecodeError] is [requests.exceptions.JSONDecodeError],
    which derives from both [InvalidJSONError] and [json.JSONDecodeError]. *)
Definition mro (c : pyclass) : list pyclass :=
  match c with
  | BaseException => [BaseException]
  | Exception => [Exception; BaseException]
  | KeyboardInterrupt => [KeyboardInterrupt; BaseException]
  | SystemExit => [SystemExit; BaseException]
  | LookupError => [LookupError; Exception; BaseException]
  | KeyError => [KeyError; LookupError; Exception; BaseException]
  | IndexError => [IndexError; LookupError; Exception; BaseException]
  | TypeError => [TypeError; Exception; BaseException]
  | AttributeError => [AttributeError; Exception; BaseException]
  | NameError => [NameError; Exception; BaseException]
  | UnboundLocalError => [UnboundLocalError; NameError; Exception; BaseException]
  | ValueError => [ValueError; Exception; BaseException]
  | JSONDecodeError => [JSONDecodeError; ValueError; Exception; BaseException]
  | RuntimeError => [RuntimeError; Exception; BaseException]
  | FitzFileNotFoundError =>
      [FitzFileNotFoundError; RuntimeError; Exception; BaseException]
  | OSError => [OSError; Exception; BaseException]
  | RequestException => [RequestException; OSError; Exception; BaseException]
  | HTTPError => [HTTPError; RequestException; OSError; Exception; BaseException]
  | ConnectionError =>
      [ConnectionError; RequestException; OSError; Exception; BaseException]
  | Timeout => [Timeout; RequestException; OSError; Exception; BaseException]
  | InvalidJSONError =>
      [InvalidJSONError; RequestException; OSError; Exception; BaseException]
  | RequestsJSONDecodeError =>
      [RequestsJSONDecodeError; InvalidJSONError; RequestException; OSError;
       JSONDecodeError; ValueError; Exception; BaseException]
  end.

Definition issubclass (c base : pyclass) : bool :=
  existsb (pyclass_eqb base) (mro c).

(** Exceptions the interpreter itself raises on the object operations the
    function performs.  Their message text belongs to the interpreter. *)
Inductive fault : Type :=
| NoAttribute (obj : pyval) (attr : string)
| NoModuleAttribute (module_name attr : string)
| MissingKey (key : pyval)
| IndexOutOfRange (obj : pyval)
| BadSubscript (obj key : pyval)
| UnboundLocal (name : string).

Definition fault_class (f : fault) : pyclass :=
  match f with
  | NoAttribute _ _ => AttributeError
  | NoModuleAttribute _ _ => AttributeError
  | MissingKey _ => KeyError
  | IndexOutOfRange _ => IndexError
  | BadSubscript _ _ => TypeError
  | UnboundLocal _ => UnboundLocalError
  end.

(** An exception object: raised by a library call, with the text [str(e)]
    gives, or raised by the interpreter. *)
Inductive exn : Type :=
| Lib (c : pyclass) (msg : string)
| Interp (f : fault).

Definition class_of (e : exn) : pyclass :=
  match e with
  | Lib c _ => c
  | Interp f => fault_class f
  end.

(** [except C as e] matches [e] when its class derives from [C]. *)
Definition isinstance (e : exn) (base : pyclass) : bool :=
  issubclass (class_of e) base.

(** The result of evaluating an expression or a call. *)
Inductive outcome (A : Type) : Type :=
| Val (a : A)
| Exc (e : exn).
Arguments Val {A} a.
Arguments Exc {A} e.

(** [obj.get(key, default)]: only a dict has the method. *)
Definition method_get (obj : pyval) (key : string) (default : pyval) : outcome pyval :=
  match obj with
  | PDict entries =>
      match dict_lookup key entries with
      | Some v => Val v
      | None => Val default
      end
  | _ => Exc (Interp (NoAttribute obj "get"))
  end.

(** The first code point of a UTF-8 string, as a string. *)
Definition utf8_len (lead : ascii) : nat :=
  let n := nat_of_ascii lead in
  if Nat.ltb n 192 then 1 else if Nat.ltb n 224 then 2
  else if Nat.ltb n 240 then 3 else 4.

Fixpoint take (n : nat) (s : string) : string :=
  match n, s with
  | S m, String c rest => String c (take m rest)
  | _, _ => EmptyString
  end.

(** [obj[0]]. *)
Definition item_0 (obj : pyval) : outcome pyval :=
  match obj with
  | PList (x :: _) => Val x
  | PList [] => Exc (Interp (IndexOutOfRange obj))
  | PStr (String c rest) => Val (PStr (take (utf8_len c) (String c rest)))
  | PStr EmptyString => Exc (Interp (IndexOutOfRange obj))
  | PDict _ => Exc (Interp (MissingKey (PInt 0)))
  | _ => Exc (Interp (BadSubscript obj (PInt 0)))
  end.

(** [obj[key]] for a string [key]. *)
Definition item_str (obj : pyval) (key : string) : outcome pyval :=
  match obj with
  | PDict entries =>
      match dict_lookup key entries with
      | Some v => Val v
      | None => Exc (Interp (MissingKey (PStr key)))
      end
  | _ => Exc (Interp (BadSubscript obj (PStr key)))
  end.

(** ["sep".join(l)]. *)
Fixpoint str_join (sep : string) (l : list string) : string :=
  match l with
  | [] => ""
  | [x] => x
  | x :: rest => x ++ sep ++ str_join sep rest
  end.

(** What the interpreter contributes to the text of an f-string: how a
    value is formatted and what message a fault carries. *)
Record runtime : Type := {
  format_value : pyval -> string;
  fault_message : fault -> string
}.

(** [str(e)], as in [f"{e}"]. *)
Definition str_exn (rt : runtime) (e : exn) : string :=
  match e with
  | Lib _ msg => msg
  | Interp f => fault_message rt f
  end.

End Py.

(* ================================================================== *)
(** ** Effects: events performed, then a value or a raised exception *)
(* ================================================================== *)

Module Eff.
Import Py.

(** What a run does that an observer can see. *)
Inductive event : Type :=
| Print (line : string)                 (* print(...) *)
| Close                                 (* doc.close() *)
| Post (url : string) (data : pyval).   (* requests.post(url, json=data, ...) *)

Definition M (A : Type) : Type := (list event * outcome A)%type.

Definition ret {A} (a : A) : M A := ([], Val a).

Definition raise {A} (e : exn) : M A := ([], Exc e).

Definition bind {A B} (m : M A) (k : A -> M B) : M B :=
  match m with
  | (t, Val a) => let (t', r) := k a in (t ++ t', r)
  | (t, Exc e) => (t, Exc e)
  end.

(** [try: m  except ... as e: h e]; a handler that does not match
    re-raises. *)
Definition try_except {A} (m : M A) (h : exn -> M A) : M A :=
  match m with
  | (t, Val a) => (t, Val a)
  | (t, Exc e) => let (t', r) := h e in (t ++ t', r)
  end.

Definition emit (ev : event) : M unit := ([ev], Val tt).

Definition print (line : string) : M unit := emit (Print line).

(** The answer of a library call, performed without an event of its own. *)
Definition call {A} (o : outcome A) : M A := ([], o).

Definition trace {A} (m : M A) : list event := fst m.
Definition result {A} (m : M A) : outcome A := snd m.

(** A block of the function either returns from the function or falls
    through to the next statement with the variables it bound. *)
Inductive flow (A : Type) : Type :=
| Return (v : pyval)
| Next (a : A).
Arguments Return {A} v.
Arguments Next {A} a.

End Eff.

Declare Scope eff_scope.
Delimit Scope eff_scope with eff.
Notation "x <- m ;; k" := (Eff.bind m (fun x => k))
  (at level 61, m at next level, right associativity) : eff_scope.
Notation "m ;;; k" := (Eff.bind m (fun _ => k))
  (at level 61, right associativity) : eff_scope.

(* ================================================================== *)
(** ** The pipeline *)
(* ================================================================== *)

Module Pipeline.
Import Py Eff.
Local Open Scope eff_scope.

(** *** The libraries, as far as the function observes them *)

(** [response_vision]: the error message (empty when there is none) and the
    full text annotation, [None] when the annotation tests false. *)
Record vision_response : Type := {
  error_message : string;
  full_text_annotation : option string
}.

(** An open document.  [ocr_page n] answers lines 45-55 for page [n]:
    rendering the page, encoding it and the text detection call, any of
    which may raise. *)
Record document : Type := {
  page_count : nat;
  ocr_page : nat -> outcome vision_response;
  close : outcome unit
}.

(** A [requests.Response]. *)
Record response : Type := {
  raise_for_status : outcome unit;
  json : outcome pyval;
  status_code : Z;
  text : string
}.

Record world : Type := {
  fitz_open : string -> outcome document;
  requests_post : string -> pyval -> outcome response;
  fitz_fitz_exists : bool
}.

(** A local variable of the function: not yet assigned, or holding [None]
    or an object. *)
Inductive local (A : Type) : Type :=
| Unbound
| Bound (v : option A).
Arguments Unbound {A}.
Arguments Bound {A} v.

Definition nl : string := String "010"%char EmptyString.

Definition GEMINI_API_URL : string :=
  "https://generativelanguage.googleapis.com/v1beta/models/gemini-1.5-flash:generateContent".

Section Run.

Variable rt : runtime.
Variable w : world.

Local Abbreviation str_e := (str_exn rt).
Local Abbreviation fmt := (format_value rt).

(** [f"{page_num + 1}"] *)
Definition pagina_str (page_num : nat) : string :=
  fmt (PInt (Z.of_nat page_num + 1)).

(** Lines 33-38.  When [fitz.open] raises, the [except] clauses are tried
    in order, and trying the first one evaluates its class expression
    [fitz.fitz.FileNotFoundError].  Whether the installed PyMuPDF has a
    submodule [fitz.fitz] is the world's ([fitz_fitz_exists]); where it has
    none, evaluating the expression raises [AttributeError] in place of
    whatever [fitz.open] raised, and neither clause of this [try] answers.
    An exception that is an instance of [fitz.fitz.FileNotFoundError] can
    only be raised where that class exists. *)
Definition abrir (pdf_path : string) : M (flow document) :=
  try_except
    (doc <- call (fitz_open w pdf_path) ;; ret (Next doc))
    (fun e =>
       if isinstance e FitzFileNotFoundError then
         ret (Return (PStr
           ("Error: No se encontró el archivo PDF en la ruta: " ++ pdf_path)))
       else if negb (fitz_fitz_exists w) then
         raise (Interp (NoModuleAttribute "fitz" "fitz"))
       else if isinstance e Exception then
         ret (Return (PStr ("Error al abrir el PDF: " ++ str_e e)))
       else raise e).

(** Lines 44-69: one turn of the loop; yields [textos_por_pagina] as the
    turn leaves it. *)
Definition pagina (doc : document) (page_num : nat)
    (textos_por_pagina : list string) : M (list string) :=
  try_except
    (response_vision <- call (ocr_page doc page_num) ;;
     if negb (String.eqb (error_message response_vision) "") then
       print ("Advertencia: Error en OCR de la página " ++ pagina_str page_num
              ++ ": " ++ error_message response_vision) ;;;
       ret textos_por_pagina
     else
       match full_text_annotation response_vision with
       | Some text =>
           if negb (String.eqb text "") then
             ret (textos_por_pagina ++ [text])
           else
             print ("Advertencia: No se pudo extraer texto de la página "
                    ++ pagina_str page_num ++ ".") ;;;
             ret textos_por_pagina
       | None =>
           print ("Advertencia: No se pudo extraer texto de la página "
                  ++ pagina_str page_num ++ ".") ;;;
           ret textos_por_pagina
       end)
    (fun e =>
       if isinstance e Exception then
         print ("Error al procesar la página " ++ pagina_str page_num
                ++ ": " ++ str_e e) ;;;
         ret textos_por_pagina
       else raise e).

(** Lines 43-69: [for page_num in range(doc.page_count)]. *)
Fixpoint iterar (doc : document) (pages : list nat)
    (textos_por_pagina : list string) : M (list string) :=
  match pages with
  | [] => ret textos_por_pagina
  | page_num :: rest =>
      textos <- pagina doc page_num textos_por_pagina ;;
      iterar doc rest textos
  end.

(** Line 71. *)
Definition cerrar (doc : document) : M unit :=
  emit Close ;;; call (close doc).

(** Line 73. *)
Definition texto_completo (textos_por_pagina : list string) : string :=
  str_join (nl ++ nl) textos_por_pagina.

(** Lines 83-87. *)
Definition data (prompt_gemini texto : string) : pyval :=
  PDict [("contents",
          PList [PDict [("parts",
                         PList [PDict [("text", PStr (prompt_gemini ++ texto))]])]])].

(** Lines 94-100: the body of [except RequestException as e], given what
    [response_gemini] holds when the handler starts. *)
Definition on_request_exception (e : exn) (response_gemini : local response)
    : M (flow pyval) :=
  match response_gemini with
  | Unbound => raise (Interp (UnboundLocal "response_gemini"))
  | Bound (Some r) =>
      match json r with
      | Val error_data =>
          ret (Return (PStr
            ("Error en la solicitud a la API de Gemini: " ++ str_e e ++ nl
             ++ "Detalles del error: " ++ fmt error_data)))
      | Exc ej =>
          if isinstance ej JSONDecodeError then
            ret (Return (PStr
              ("Error en la solicitud a la API de Gemini: " ++ str_e e ++ nl
               ++ "Código de estado: " ++ fmt (PInt (status_code r)) ++ nl
               ++ "Respuesta (no JSON): " ++ text r)))
          else raise ej
      end
  | Bound None =>
      ret (Return (PStr ("Error en la solicitud a la API de Gemini: " ++ str_e e)))
  end.

(** Line 93: which exceptions the handler takes. *)
Definition except_request (e : exn) (response_gemini : local response)
    : M (flow pyval) :=
  if isinstance e RequestException then on_request_exception e response_gemini
  else raise e.

(** Lines 90-100, once [requests.post] has answered.  [response_gemini]
    is assigned only if the call returned. *)
Definition recibir (answer : outcome response) : M (flow pyval) :=
  match answer with
  | Exc e => except_request e Unbound
  | Val r =>
      match raise_for_status r with
      | Exc e => except_request e (Bound (Some r))
      | Val _ =>
          match json r with
          | Exc e => except_request e (Bound (Some r))
          | Val response_json => ret (Next response_json)
          end
      end
  end.

(** Lines 89-100. *)
Definition solicitar (body : pyval) : M (flow pyval) :=
  emit (Post GEMINI_API_URL body) ;;;
  recibir (requests_post w GEMINI_API_URL body).

(** Lines 103-115. *)
Definition procesar_respuesta (response_json : pyval) : M pyval :=
  try_except
    (candidates <- call (method_get response_json "candidates" (PList [])) ;;
     if truthy candidates then
       c0 <- call (item_0 candidates) ;;
       content <- call (item_str c0 "content") ;;
       parts <- call (method_get content "parts" (PList [])) ;;
       if truthy parts then
         p0 <- call (item_0 parts) ;;
         call (method_get p0 "text" (PStr "Respuesta de Gemini sin texto."))
       else ret (PStr "Error: Respuesta de Gemini sin 'parts'.")
     else ret (PStr "Error: Respuesta de Gemini sin 'candidates'."))
    (fun e =>
       if isinstance e KeyError || isinstance e IndexError || isinstance e TypeError
       then
         print ("Error al procesar la respuesta de Gemini (formato inesperado): "
                ++ str_e e) ;;;
         ret (PStr ("Respuesta completa de Gemini (para depuración):" ++ nl
                    ++ fmt response_json))
       else raise e).

(** What follows the request: the handler returned from the function, or
    [response_json] is bound and lines 103-115 run. *)
Definition concluir (r : flow pyval) : M pyval :=
  match r with
  | Return v => ret v
  | Next response_json => procesar_respuesta response_json
  end.

(** Lines 73-115: everything after the document is closed. *)
Definition analizar (prompt_gemini : string) (textos_por_pagina : list string)
    : M pyval :=
  let texto := texto_completo textos_por_pagina in
  if String.eqb texto "" then
    ret (PStr "Advertencia: No se pudo extraer texto de ninguna página del PDF.")
  else
    r <- solicitar (data prompt_gemini texto) ;;
    concluir r.

(** Lines 40-71: the page loop and the close; yields [textos_por_pagina]. *)
Definition extraer (doc : document) : M (list string) :=
  textos <- iterar doc (seq 0 (page_count doc)) [] ;;
  cerrar doc ;;;
  ret textos.

(** Lines 32-115: the body of the outer [try]. *)
Definition cuerpo (pdf_path prompt_gemini : string) : M pyval :=
  r <- abrir pdf_path ;;
  match r with
  | Return v => ret v
  | Next doc =>
      textos_por_pagina <- extraer doc ;;
      analizar prompt_gemini textos_por_pagina
  end.

(** Lines 117-118: [except Exception as e]. *)
Definition on_exception (e : exn) : M pyval :=
  if isinstance e Exception then
    ret (PStr ("Error general al procesar el PDF: " ++ str_e e))
  else raise e.

(** Lines 31-118. *)
Definition procesar_pdf_con_vision_y_gemini (pdf_path prompt_gemini : string)
    : M pyval :=
  try_except (cuerpo pdf_path prompt_gemini) on_exception.

End Run.

End Pipeline.

(* ================================================================== *)
(** ** The module around the function *)
(* ================================================================== *)

Module Script.
Import Py Eff Pipeline.
Local Open Scope eff_scope.

(** Line 16: the exception the module raises when it finds no key. *)
Definition falta_clave : exn :=
  Lib ValueError
    "Error: La variable de entorno GEMINI_API_KEY no está definida. Consulta las instrucciones para configurarla.".

(** Line 121. *)
Definition pdf_path : string := "orestes.pdf".

(** Line 122. *)
Definition prompt_personalizado : string :=
  ("Extrae el activo o los activos totales con su fecha el texto esta en portugues genera un json con esa informacion:"
   ++ nl ++ nl)%string.

(** Lines 11-16 and 121-124: what importing or running the module does.
    [GEMINI_API_KEY] is what [os.environ.get] answers once [load_dotenv]
    has run ([None] when the variable is not set); the function sends its
    requests with the key, so the world it runs in is given by the key. *)
Definition main (rt : runtime) (GEMINI_API_KEY : option string)
    (w : string -> world) : M unit :=
  match GEMINI_API_KEY with
  | None => raise falta_clave
  | Some API_KEY =>
      if negb (truthy (PStr API_KEY)) then raise falta_clave
      else
        resultado <- procesar_pdf_con_vision_y_gemini rt (w API_KEY)
                       pdf_path prompt_personalizado ;;
        print (format_value rt resultado)
  end.

End Script.

(* ================================================================== *)
(** ** A runtime to evaluate the model with *)
(* ================================================================== *)

(** The theorems below hold for every [runtime].  To run the model on a
    concrete input one is needed; this one follows CPython's [str] and
    [repr] on the values of [pyval], with two simplifications: a code point
    outside ASCII is taken as printable, and a float is printed by its exact
    decimal expansion (which is what [repr] prints for a float between
    1e-4 and 1e16 whose exact expansion is also the shortest decimal that
    reads back as the same float). *)
Module CPython.
Import Py.
Local Open Scope string_scope.

Definition str_of_Z (n : Z) : string := NilZero.string_of_int (Z.to_int n).

Definition hex_digit (n : nat) : string :=
  String.substring n 1 "0123456789abcdef".

Fixpoint contains_char (c : ascii) (s : string) : bool :=
  match s with
  | EmptyString => false
  | String d rest => Ascii.eqb c d || contains_char c rest
  end.

Definition escape_char (quote c : ascii) : string :=
  let n := nat_of_ascii c in
  if Ascii.eqb c "\"%char then "\\"
  else if Ascii.eqb c quote then String "\"%char (String c EmptyString)
  else if Nat.eqb n 10 then "\n"
  else if Nat.eqb n 13 then "\r"
  else if Nat.eqb n 9 then "\t"
  else if Nat.ltb n 32 || Nat.eqb n 127 then
    "\x" ++ hex_digit (n / 16) ++ hex_digit (n mod 16)
  else String c EmptyString.

Fixpoint escape (quote : ascii) (s : string) : string :=
  match s with
  | EmptyString => EmptyString
  | String c rest => escape_char quote c ++ escape quote rest
  end.

Definition double_quote : ascii := "034"%char.

Definition repr_str (s : string) : string :=
  let quote :=
    if contains_char "'"%char s && negb (contains_char double_quote s)
    then double_quote else "'"%char in
  String quote (escape quote s ++ String quote EmptyString).

Fixpoint rstrip_zeros (s : string) : string :=
  match s with
  | EmptyString => EmptyString
  | String c rest =>
      match rstrip_zeros rest with
      | EmptyString => if Ascii.eqb c "0"%char then EmptyString else String c EmptyString
      | kept => String c kept
      end
  end.

Fixpoint zeros (n : nat) : string :=
  match n with
  | O => EmptyString
  | S k => String "0"%char (zeros k)
  end.

(** [s] with zeros in front, up to [width] characters. *)
Definition pad_left (width : nat) (s : string) : string :=
  zeros (width - String.length s) ++ s.

(** The digits after the point of [r / 2 ^ k], for [0 <= r < 2 ^ k]. *)
Definition fraction (r : Z) (k : nat) : string :=
  if Z.eqb r 0 then "0"
  else rstrip_zeros (pad_left k (str_of_Z (r * 5 ^ Z.of_nat k))).

Definition repr_float (x : float) : string :=
  match Prim2SF x with
  | S754_zero s => if s then "-0.0" else "0.0"
  | S754_infinity s => if s then "-inf" else "inf"
  | S754_nan => "nan"
  | S754_finite s m e =>
      let sign := if s then "-" else "" in
      let m := Z.pos m in
      if Z.leb 0 e then sign ++ str_of_Z (m * 2 ^ e) ++ ".0"
      else
        let k := Z.to_nat (- e) in
        sign ++ str_of_Z (m / 2 ^ Z.of_nat k) ++ "."
        ++ fraction (m mod 2 ^ Z.of_nat k) k
  end.

Fixpoint repr (v : pyval) : string :=
  match v with
  | PNone => "None"
  | PBool b => if b then "True" else "False"
  | PInt n => str_of_Z n
  | PFloat x => repr_float x
  | PStr s => repr_str s
  | PList items =>
      "[" ++ (fix go (l : list pyval) : string :=
                match l with
                | [] => ""
                | [x] => repr x
                | x :: rest => repr x ++ ", " ++ go rest
                end) items ++ "]"
  | PDict entries =>
      "{" ++ (fix go (l : list (string * pyval)) : string :=
                match l with
                | [] => ""
                | [(k, x)] => repr_str k ++ ": " ++ repr x
                | (k, x) :: rest => repr_str k ++ ": " ++ repr x ++ ", " ++ go rest
                end) entries ++ "}"
  end.

(** [format(v, "")], which is [str(v)]: a string is printed as it is. *)
Definition str (v : pyval) : string :=
  match v with
  | PStr s => s
  | _ => repr v
  end.

Definition type_name (v : pyval) : string :=
  match v with
  | PNone => "NoneType"
  | PBool _ => "bool"
  | PInt _ => "int"
  | PFloat _ => "float"
  | PStr _ => "str"
  | PList _ => "list"
  | PDict _ => "dict"
  end.

Definition message (f : fault) : string :=
  match f with
  | NoAttribute obj attr =>
      "'" ++ type_name obj ++ "' object has no attribute '" ++ attr ++ "'"
  | NoModuleAttribute module_name attr =>
      "module '" ++ module_name ++ "' has no attribute '" ++ attr ++ "'"
  | MissingKey key => repr key
  | IndexOutOfRange obj =>
      match obj with
      | PStr _ => "string index out of range"
      | _ => "list index out of range"
      end
  | BadSubscript obj key =>
      match obj with
      | PStr _ => "string indices must be integers, not '" ++ type_name key ++ "'"
      | PList _ => "list indices must be integers or slices, not " ++ type_name key
      | _ => "'" ++ type_name obj ++ "' object is not subscriptable"
      end
  | UnboundLocal name =>
      "cannot access local variable '" ++ name
      ++ "' where it is not associated with a value"
  end.

Definition cpython : runtime := {|
  format_value := str;
  fault_message := message
|}.

End CPython.

(* ================================================================== *)
(** ** Concrete documents, responses and worlds *)
(* ================================================================== *)

Module Examples.
Import Py Eff Pipeline.

Definition page_ok (t : string) : outcome vision_response :=
  Val {| error_message := ""; full_text_annotation := Some t |}.

Definition page_error (msg : string) : outcome vision_response :=
  Val {| error_message := msg; full_text_annotation := None |}.

Definition doc_of (pages : list (outcome vision_response)) : document :=
  {| page_count := length pages;
     ocr_page := fun n => nth n pages (Exc (Lib IndexError "page not in document"));
     close := Val tt |}.

Definition mundo (pages : list (outcome vision_response))
    (post : outcome response) : world :=
  {| fitz_open := fun _ => Val (doc_of pages);
     requests_post := fun _ _ => post;
     fitz_fitz_exists := true |}.

(** A 200 response whose body decodes to [rj]. *)
Definition answer (rj : pyval) (raw : string) : outcome response :=
  Val {| raise_for_status := Val tt; json := Val rj;
         status_code := 200; text := raw |}.

Definition two_pages : list (outcome vision_response) :=
  [page_ok "ATIVO TOTAL 1.234"; page_ok "31/12/2023"].

(** The body of section 6 of the specification. *)
Definition rj_answer : pyval :=
  PDict [("candidates",
          PList [PDict [("content",
                         PDict [("parts",
                                 PList [PDict [("text", PStr "1.234")]])])]])].

Definition rj_no_candidates : pyval :=
  PDict [("promptFeedback", PDict [("blockReason", PStr "SAFETY")])].

Definition rj_no_parts : pyval :=
  PDict [("candidates",
          PList [PDict [("content", PDict [("role", PStr "model")])]])].

Definition rj_no_content : pyval :=
  PDict [("candidates", PList [PDict [("finishReason", PStr "SAFETY")]])].

Definition rj_no_text : pyval :=
  PDict [("candidates",
          PList [PDict [("content",
                         PDict [("parts",
                                 PList [PDict [("inlineData", PStr "")]])])]])].

Definition rj_text_number : pyval :=
  PDict [("candidates",
          PList [PDict [("content",
                         PDict [("parts", PList [PDict [("text", PInt 5)]])])]])].

Definition rj_error : pyval :=
  PDict [("error", PDict [("code", PInt 400); ("status", PStr "INVALID_ARGUMENT")])].

Definition w_answer : world := mundo two_pages (answer rj_answer "").
Definition w_no_candidates : world := mundo two_pages (answer rj_no_candidates "").
Definition w_no_parts : world := mundo two_pages (answer rj_no_parts "").
Definition w_no_content : world := mundo two_pages (answer rj_no_content "").
Definition w_no_text : world := mundo two_pages (answer rj_no_text "").
Definition w_text_number : world := mundo two_pages (answer rj_text_number "").

(** No page yields text: the first has no annotation, the second fails. *)
Definition blank_pages : list (outcome vision_response) :=
  [Val {| error_message := ""; full_text_annotation := None |};
   page_error "Bad image data."].

Definition w_blank : world := mundo blank_pages (answer rj_answer "").

(** The second of three pages fails in the OCR service. *)
Definition doc_bad_page : document :=
  doc_of [page_ok "uno"; page_error "Bad image data."; page_ok "tres"].

(** The network is down: [requests.post] raises. *)
Definition e_offline : exn := Lib ConnectionError "Max retries exceeded".
Definition w_offline : world := mundo two_pages (Exc e_offline).

(** The service answers 400 with a JSON body. *)
Definition e_400 : exn := Lib HTTPError "400 Client Error: Bad Request for url".
Definition w_400 : world :=
  mundo two_pages
        (Val {| raise_for_status := Exc e_400; json := Val rj_error;
                status_code := 400; text := "" |}).

(** The user interrupts the run during the first page. *)
Definition w_interrupt : world :=
  mundo [Exc (Lib KeyboardInterrupt "")] (answer rj_answer "").

Definition pdf : string := "orestes.pdf".
Definition prompt : string := "Extrae el activo total:".

(** The file is not there. *)
Definition e_missing : exn :=
  Lib FitzFileNotFoundError "no such file: 'orestes.pdf'".
Definition w_missing : world :=
  {| fitz_open := fun _ => Exc e_missing;
     requests_post := fun _ _ => answer rj_answer "";
     fitz_fitz_exists := true |}.

(** The file is there but cannot be opened as a document. *)
Definition e_broken : exn := Lib RuntimeError "Failed to open file 'orestes.pdf'.".
Definition w_broken : world :=
  {| fitz_open := fun _ => Exc e_broken;
     requests_post := fun _ _ => answer rj_answer "";
     fitz_fitz_exists := true |}.

(** Five pages: a text, no annotation, a rendering failure, a service
    error, a text. *)
Definition e_render : exn := Lib RuntimeError "cannot render page".
Definition doc_mixed : document :=
  doc_of [page_ok "uno";
          Val {| error_message := ""; full_text_annotation := None |};
          Exc e_render;
          page_error "Bad image data.";
          page_ok "cinco"].

(** The user interrupts the run during the second of three pages. *)
Definition e_ctrl_c : exn := Lib KeyboardInterrupt "".
Definition w_interrupt_second : world :=
  mundo [page_ok "uno"; Exc e_ctrl_c; page_ok "tres"] (answer rj_answer "").

(** The world of the three-page document whose second page fails. *)
Definition w_bad_page : world :=
  {| fitz_open := fun _ => Val doc_bad_page;
     requests_post := fun _ _ => answer rj_answer "";
     fitz_fitz_exists := true |}.

(** The same file with a PyMuPDF that has no submodule [fitz.fitz]. *)
Definition w_broken_no_fitz_fitz : world :=
  {| fitz_open := fun _ => Exc e_broken;
     requests_post := fun _ _ => answer rj_answer "";
     fitz_fitz_exists := false |}.

(** A one-page document whose close fails. *)
Definition e_close : exn := Lib ValueError "document closed".
Definition doc_close_fails : document :=
  {| page_count := 1; ocr_page := fun _ => page_ok "uno"; close := Exc e_close |}.
Definition w_close_fails : world :=
  {| fitz_open := fun _ => Val doc_close_fails;
     requests_post := fun _ _ => answer rj_answer "";
     fitz_fitz_exists := true |}.

(** A gateway answers 502 with an HTML page. *)
Definition e_502 : exn := Lib HTTPError "502 Server Error: Bad Gateway for url".
Definition e_decode : exn :=
  Lib RequestsJSONDecodeError "Expecting value: line 1 column 1 (char 0)".
Definition r_502 : response :=
  {| raise_for_status := Exc e_502; json := Exc e_decode;
     status_code := 502; text := "<html>Bad Gateway</html>" |}.
Definition w_502 : world := mundo two_pages (Val r_502).

(** A 200 response whose body does not decode; the decode error is of the
    class of the requests library, or (older versions) of the json module. *)
Definition r_200_html (ej : exn) : response :=
  {| raise_for_status := Val tt; json := Exc ej;
     status_code := 200; text := "<html></html>" |}.
Definition e_decode_plain : exn :=
  Lib JSONDecodeError "Expecting value: line 1 column 1 (char 0)".
Definition w_200_html : world := mundo two_pages (Val (r_200_html e_decode)).
Definition w_200_html_plain : world :=
  mundo two_pages (Val (r_200_html e_decode_plain)).

(** The certificate bundle is missing: [requests.post] raises [OSError]. *)
Definition e_ca_bundle : exn :=
  Lib OSError "Could not find a suitable TLS CA certificate bundle".
Definition w_no_ca : world := mundo two_pages (Exc e_ca_bundle).

Definition rj_empty_candidates : pyval := PDict [("candidates", PList [])].

Definition rj_empty_parts : pyval :=
  PDict [("candidates",
          PList [PDict [("content",
                         PDict [("parts", PList []); ("role", PStr "model")])]])].

Definition w_empty_candidates : world :=
  mundo two_pages (answer rj_empty_candidates "").
Definition w_empty_parts : world := mundo two_pages (answer rj_empty_parts "").

(** The body is a JSON array. *)
Definition w_array : world := mundo two_pages (answer (PList []) "[]").

End Examples.

(* ================================================================== *)
(** ** Vocabulary of the statements *)
(* ================================================================== *)

Import Py Eff Pipeline.
Local Open Scope eff_scope.

(** The event is a request to the LLM endpoint. *)
Definition is_post (ev : event) : bool :=
  match ev with Post _ _ => true | _ => false end.

(** The run sent a request to the LLM endpoint. *)
Definition llm_called (t : list event) : bool := existsb is_post t.

(** T1 + "\n\n" + T2 + ... + "\n\n" + Tn, read left to right as the
    specification writes it. *)
Definition spec_aggregate (Ts : list string) : string :=
  match Ts with
  | [] => ""
  | T1 :: rest =>
      fold_left (fun acc T => ((acc ++ (nl ++ nl)) ++ T)%string) rest T1
  end.

(** The run reaches line 90 and [requests.post] answers [o]. *)
Definition solicita (rt : runtime) (w : world) (path prompt : string)
    (o : outcome response) : Prop :=
  exists doc tr textos,
    fitz_open w path = Val doc
    /\ extraer rt doc = (tr, Val textos)
    /\ texto_completo textos <> ""
    /\ requests_post w GEMINI_API_URL (data prompt (texto_completo textos)) = o.

(** The run obtains a response whose status check passes and whose body
    decodes to [response_json]. *)
Definition responde (rt : runtime) (w : world) (path prompt : string)
    (response_json : pyval) : Prop :=
  exists r,
    solicita rt w path prompt (Val r)
    /\ raise_for_status r = Val tt
    /\ json r = Val response_json.

(** [s] contains [sub]. *)
Definition contiene (s sub : string) : Prop :=
  exists before after, s = (before ++ sub ++ after)%string.

(** The value is a [str]. *)
Definition es_cadena (v : pyval) : bool :=
  match v with PStr _ => true | _ => false end.

(** The value at [candidates[0].content.parts[0].text] of a response body
    of the documented shape, if the body has that shape. *)
Definition primer_texto (response_json : pyval) : option pyval :=
  match response_json with
  | PDict top =>
      match dict_lookup "candidates" top with
      | Some (PList (PDict c0 :: _)) =>
          match dict_lookup "content" c0 with
          | Some (PDict content) =>
              match dict_lookup "parts" content with
              | Some (PList (PDict p0 :: _)) => dict_lookup "text" p0
              | _ => None
              end
          | _ => None
          end
      | _ => None
      end
  | _ => None
  end.

(** A call that, when it raises, raises an exception deriving from [base]. *)
Definition raises_only (base : pyclass) {A} (o : outcome A) : Prop :=
  match o with
  | Val _ => True
  | Exc e => isinstance e base = true
  end.

(** Every exception a library call of the run on [path] raises derives from
    [Exception] (no [KeyboardInterrupt], no [SystemExit]). *)
Definition sin_interrupciones (w : world) (path : string) : Prop :=
  raises_only Exception (fitz_open w path)
  /\ forall doc, fitz_open w path = Val doc ->
       (forall n, raises_only Exception (ocr_page doc n))
       /\ raises_only Exception (close doc)
       /\ forall body,
            raises_only Exception (requests_post w GEMINI_API_URL body)
            /\ forall r, requests_post w GEMINI_API_URL body = Val r ->
                 raises_only Exception (raise_for_status r)
                 /\ raises_only Exception (json r).

(** What the body of the outer [try] may end with when no library call is
    interrupted: a string, the ['text'] of the first part of the response,
    or an exception deriving from [Exception]. *)
Definition termina_bien (rt : runtime) (w : world) (path prompt : string)
    (o : outcome pyval) : Prop :=
  match o with
  | Val v =>
      es_cadena v = true
      \/ exists response_json,
           responde rt w path prompt response_json
           /\ primer_texto response_json = Some v
  | Exc e => isinstance e Exception = true
  end.

(** The event is a printed line. *)
Definition is_print (ev : event) : bool :=
  match ev with Print _ => true | _ => false end.

(** What a run may still do once the request is sent: print one line at
    most. *)
Definition after_post (t : list event) : bool :=
  match t with
  | [] => true
  | [Print _] => true
  | _ => false
  end.

(** What a run may still do once the document is closed: send one request
    at most. *)
Definition after_close (t : list event) : bool :=
  match t with
  | [] => true
  | Post _ _ :: rest => after_post rest
  | _ => false
  end.

(** The order of events of a run: lines printed, then at most one close,
    then at most one request, then at most one line. *)
Fixpoint run_shape (t : list event) : bool :=
  match t with
  | [] => true
  | Print _ :: rest => run_shape rest
  | Close :: rest => after_close rest
  | Post _ _ :: _ => false
  end.

(** The text a page adds to [textos_por_pagina], given what lines 45-55
    answer for it: the text of the annotation when the response carries no
    error message and the text is not empty. *)
Definition aporte (o : outcome vision_response) : list string :=
  match o with
  | Val r =>
      if String.eqb (error_message r) "" then
        match full_text_annotation r with
        | Some text => if String.eqb text "" then [] else [text]
        | None => []
        end
      else []
  | Exc _ => []
  end.

(** The line printed for a page that adds no text. *)
Definition aviso (rt : runtime) (page_num : nat)
    (o : outcome vision_response) : list event :=
  match o with
  | Val r =>
      if String.eqb (error_message r) "" then
        match aporte o with
        | [] => [Print ("Advertencia: No se pudo extraer texto de la página "
                        ++ format_value rt (PInt (Z.of_nat page_num + 1)) ++ ".")]
        | _ :: _ => []
        end
      else [Print ("Advertencia: Error en OCR de la página "
                   ++ format_value rt (PInt (Z.of_nat page_num + 1)) ++ ": "
                   ++ error_message r)]
  | Exc e =>
      if isinstance e Exception then
        [Print ("Error al procesar la página "
                ++ format_value rt (PInt (Z.of_nat page_num + 1)) ++ ": "
                ++ str_exn rt e)]
      else []
  end.

(** The event is the close of the document. *)
Definition is_close (ev : event) : bool :=
  match ev with Close => true | _ => false end.

(** The texts the pages of [pages] add, in the order of [pages]. *)
Definition textos_de (doc : document) (pages : list nat) : list string :=
  flat_map (fun n => aporte (ocr_page doc n)) pages.

(** The pages of the document other than page [k], in ascending order. *)
Definition otras_paginas (doc : document) (k : nat) : list nat :=
  filter (fun n => negb (Nat.eqb n k)) (seq 0 (page_count doc)).

(* ================================================================== *)
(** ** Properties *)
(* ================================================================== *)

(** *** Strings *)

Lemma append_assoc (a b c : string) :
  ((a ++ b) ++ c)%string = (a ++ (b ++ c))%string.
Proof. induction a as [|x a IH]; simpl; [reflexivity | now rewrite IH]. Qed.

Lemma append_eq_empty (a b : string) :
  (a ++ b)%string = "" -> a = "" /\ b = "".
Proof. destruct a; simpl; [auto | discriminate]. Qed.

Lemma eqb_empty_false (s : string) : s <> "" -> String.eqb s "" = false.
Proof. intro H. now apply String.eqb_neq. Qed.

Lemma str_join_empty (sep : string) (l : list string) :
  Forall (fun t => t <> "") l -> str_join sep l = "" -> l = [].
Proof.
  intros Hne Hj. destruct l as [|x rest]; [reflexivity | exfalso].
  inversion Hne as [|? ? Hx _]; subst. apply Hx.
  destruct rest; simpl in Hj; [assumption |].
  now apply append_eq_empty in Hj.
Qed.

(** *** The monad *)

Lemma bind_val {A B} (m : M A) (k : A -> M B) t a :
  m = (t, Val a) -> bind m k = (t ++ trace (k a), result (k a)).
Proof. intros ->. unfold bind. now destruct (k a). Qed.

Lemma bind_exc {A B} (m : M A) (k : A -> M B) t e :
  m = (t, Exc e) -> bind m k = (t, Exc e).
Proof. now intros ->. Qed.

Lemma bind_ret_l {A B} (a : A) (k : A -> M B) : bind (ret a) k = k a.
Proof. unfold bind, ret. now destruct (k a). Qed.

Lemma bind_assoc {A B C} (m : M A) (f : A -> M B) (g : B -> M C) :
  bind (bind m f) g = bind m (fun a => bind (f a) g).
Proof.
  destruct m as [t [a|e]]; simpl; [|reflexivity].
  destruct (f a) as [t1 [b|e]]; simpl; [|reflexivity].
  destruct (g b) as [t2 r]. now rewrite app_assoc.
Qed.

Lemma bind_ext {A B} (m : M A) (f g : A -> M B) :
  (forall a, f a = g a) -> bind m f = bind m g.
Proof. intro H. destruct m as [t [a|e]]; simpl; [now rewrite H | reflexivity]. Qed.

Lemma trace_bind {A B} (m : M A) (k : A -> M B) :
  exists t, trace (bind m k) = trace m ++ t.
Proof.
  destruct m as [t0 [a|e]]; simpl.
  - destruct (k a) as [t1 r]. now exists t1.
  - exists []. now rewrite app_nil_r.
Qed.


Lemma try_except_exc {A} (m : M A) h t e :
  m = (t, Exc e) -> try_except m h = (t ++ trace (h e), result (h e)).
Proof. intros ->. unfold try_except. now destruct (h e). Qed.

#[local] Arguments bind : simpl never.
#[local] Arguments try_except : simpl never.
#[local] Arguments ret : simpl never.

(** *** Which events a trace holds *)

(** The branches of one turn of the loop. *)
Ltac pagina_cases doc n :=
  unfold pagina, try_except, bind, call, print, emit, ret, raise;
  destruct (ocr_page doc n) as [[msg [text|]]|e]; simpl;
  [ destruct (String.eqb msg "") eqn:?; simpl;
    [ destruct (String.eqb text "") eqn:?; simpl | ]
  | destruct (String.eqb msg "") eqn:?; simpl
  | destruct (isinstance e Exception) eqn:?; simpl ].

Lemma pagina_no_post rt doc n acc :
  llm_called (trace (pagina rt doc n acc)) = false.
Proof.
  pagina_cases doc n; reflexivity.
Qed.

Lemma iterar_no_post rt doc pages : forall acc,
  llm_called (trace (iterar rt doc pages acc)) = false.
Proof.
  induction pages as [|n rest IH]; intro acc; simpl; [reflexivity|].
  pose proof (pagina_no_post rt doc n acc) as Hp.
  destruct (pagina rt doc n acc) as [t [textos|e]]; unfold bind; simpl in *;
    [|assumption].
  specialize (IH textos). destruct (iterar rt doc rest textos) as [t' r]; simpl in *.
  unfold llm_called in *. rewrite existsb_app, Hp, IH. reflexivity.
Qed.

Lemma extraer_no_post rt doc : llm_called (trace (extraer rt doc)) = false.
Proof.
  unfold extraer. pose proof (iterar_no_post rt doc (seq 0 (page_count doc)) []) as Hi.
  destruct (iterar rt doc (seq 0 (page_count doc)) []) as [t [textos|e]];
    unfold bind at 1; simpl in *; [|assumption].
  unfold cerrar, emit, call, bind, ret. simpl.
  destruct (close doc) as [[]|e]; simpl;
    unfold llm_called in *; rewrite existsb_app, Hi; reflexivity.
Qed.

(** *** The page loop *)

(** A turn of the loop only ever appends to [textos_por_pagina]. *)
Lemma pagina_acc rt doc n acc :
  pagina rt doc n acc = bind (pagina rt doc n []) (fun add => ret (acc ++ add)).
Proof.
  pagina_cases doc n; now rewrite ?app_nil_r.
Qed.

Lemma iterar_acc rt doc pages : forall acc,
  iterar rt doc pages acc
  = bind (iterar rt doc pages []) (fun add => ret (acc ++ add)).
Proof.
  induction pages as [|n rest IH]; intro acc; simpl.
  - rewrite bind_ret_l. now rewrite app_nil_r.
  - rewrite (pagina_acc rt doc n acc), !bind_assoc.
    apply bind_ext. intro a. rewrite bind_ret_l.
    rewrite (IH (acc ++ a)), (IH a), bind_assoc.
    apply bind_ext. intro b. rewrite bind_ret_l. now rewrite app_assoc.
Qed.

Lemma iterar_app rt doc p1 : forall p2 acc,
  iterar rt doc (p1 ++ p2) acc
  = bind (iterar rt doc p1 acc) (iterar rt doc p2).
Proof.
  induction p1 as [|n rest IH]; intros p2 acc; simpl.
  - now rewrite bind_ret_l.
  - rewrite bind_assoc. apply bind_ext. intro a. apply IH.
Qed.

(** Every text in [textos_por_pagina] passed the test [if text:]. *)
Lemma pagina_nonempty rt doc n acc t textos :
  Forall (fun s => s <> "") acc ->
  pagina rt doc n acc = (t, Val textos) ->
  Forall (fun s => s <> "") textos.
Proof.
  intro Hacc.
  pagina_cases doc n; intro H; inversion H; subst; try assumption.
  apply Forall_app. split; [assumption|]. constructor; [|constructor].
  intros ->. discriminate.
Qed.

Lemma iterar_nonempty rt doc pages : forall acc t textos,
  Forall (fun s => s <> "") acc ->
  iterar rt doc pages acc = (t, Val textos) ->
  Forall (fun s => s <> "") textos.
Proof.
  induction pages as [|n rest IH]; intros acc t textos Hacc; simpl.
  - unfold ret. intro H. inversion H; subst. assumption.
  - destruct (pagina rt doc n acc) as [t1 [a|e]] eqn:Hp; unfold bind; simpl.
    + destruct (iterar rt doc rest a) as [t2 r] eqn:Hi. intro H.
      inversion H; subst. eapply IH; [|exact Hi].
      eapply pagina_nonempty; eassumption.
    + discriminate.
Qed.

Lemma extraer_inv rt doc tr textos :
  extraer rt doc = (tr, Val textos) ->
  exists t, iterar rt doc (seq 0 (page_count doc)) [] = (t, Val textos)
            /\ tr = t ++ [Close] /\ close doc = Val tt.
Proof.
  unfold extraer.
  destruct (iterar rt doc (seq 0 (page_count doc)) []) as [t [a|e]];
    unfold bind at 1; simpl; [|discriminate].
  unfold cerrar, emit, call, bind, ret. simpl.
  destruct (close doc) as [[]|e]; simpl; [|discriminate].
  intro H. inversion H; subst. exists t. auto.
Qed.

Lemma extraer_nonempty rt doc tr textos :
  extraer rt doc = (tr, Val textos) -> Forall (fun s => s <> "") textos.
Proof.
  intro H. apply extraer_inv in H as (t & Hi & _ & _).
  eapply iterar_nonempty; [|exact Hi]. constructor.
Qed.

Lemma trace_try_except {A} (m : M A) h :
  exists t, trace (try_except m h) = trace m ++ t.
Proof.
  destruct m as [t0 [a|e]]; unfold try_except; simpl.
  - exists []. now rewrite app_nil_r.
  - destruct (h e) as [t1 r]. now exists t1.
Qed.



(** *** From the document to the request *)

Lemma abrir_val rt w path doc :
  fitz_open w path = Val doc -> abrir rt w path = ([], Val (Next doc)).
Proof. intro H. unfold abrir, call, try_except, bind, ret. now rewrite H. Qed.

(** A run that opens the document and leaves the loop and the close with
    [textos] goes on with [analizar]. *)
Lemma cuerpo_extrae rt w path prompt doc tr textos :
  fitz_open w path = Val doc ->
  extraer rt doc = (tr, Val textos) ->
  cuerpo rt w path prompt
  = (tr ++ trace (analizar rt w prompt textos),
     result (analizar rt w prompt textos)).
Proof.
  intros Ho He. unfold cuerpo.
  rewrite (bind_val _ _ _ _ (abrir_val rt w path doc Ho)). simpl.
  now rewrite (bind_val _ _ _ _ He).
Qed.

Lemma analizar_nil rt w prompt :
  analizar rt w prompt []
  = ret (PStr "Advertencia: No se pudo extraer texto de ninguna página del PDF.").
Proof. reflexivity. Qed.

Lemma analizar_text rt w prompt textos :
  texto_completo textos <> "" ->
  analizar rt w prompt textos
  = bind (solicitar rt w (data prompt (texto_completo textos)))
         (concluir rt).
Proof. intro H. unfold analizar. now rewrite (eqb_empty_false _ H). Qed.

Lemma solicitar_trace rt w body :
  exists t, trace (solicitar rt w body) = Post GEMINI_API_URL body :: t.
Proof.
  unfold solicitar.
  destruct (trace_bind (emit (Post GEMINI_API_URL body))
              (fun _ => recibir rt (requests_post w GEMINI_API_URL body)))
    as [t Ht].
  exists t. exact Ht.
Qed.

(** ** C1 *)

(** C1.  When the run reaches line 73 with an empty [textos_por_pagina]
    (equivalently, with an empty [texto_completo]), the function returns the
    fixed warning and no request was sent to the LLM endpoint; a run that
    reaches line 73 sends the request exactly when [texto_completo] is not
    empty. *)
Theorem empty_text_short_circuits rt w path prompt doc tr textos :
  fitz_open w path = Val doc ->
  extraer rt doc = (tr, Val textos) ->
  (textos = [] <-> texto_completo textos = "")
  /\ (textos = [] ->
      procesar_pdf_con_vision_y_gemini rt w path prompt
      = (tr, Val (PStr
           "Advertencia: No se pudo extraer texto de ninguna página del PDF."))
      /\ llm_called tr = false)
  /\ (llm_called (trace (procesar_pdf_con_vision_y_gemini rt w path prompt)) = true
      <-> texto_completo textos <> "").
Proof.
  intros Ho He.
  assert (Hiff : textos = [] <-> texto_completo textos = "").
  { split; [now intros -> |].
    apply str_join_empty. eapply extraer_nonempty; eassumption. }
  assert (Hnil : textos = [] ->
      procesar_pdf_con_vision_y_gemini rt w path prompt
      = (tr, Val (PStr
           "Advertencia: No se pudo extraer texto de ninguna página del PDF."))
      /\ llm_called tr = false).
  { intros ->. split.
    - unfold procesar_pdf_con_vision_y_gemini.
      rewrite (cuerpo_extrae _ _ _ _ _ _ _ Ho He), analizar_nil. simpl.
      now rewrite app_nil_r.
    - pose proof (extraer_no_post rt doc) as Hn. now rewrite He in Hn. }
  split; [exact Hiff | split; [exact Hnil |]].
  split.
  - intros Hcall Hempty. apply Hiff in Hempty. destruct (Hnil Hempty) as [Hrun Hno].
    rewrite Hrun in Hcall. simpl in Hcall. congruence.
  - intro Hne. unfold procesar_pdf_con_vision_y_gemini.
    destruct (trace_try_except (cuerpo rt w path prompt) (on_exception rt))
      as [t1 ->].
    rewrite (cuerpo_extrae _ _ _ _ _ _ _ Ho He), (analizar_text _ _ _ _ Hne).
    simpl.
    match goal with
    | |- context [trace (bind ?m ?k)] => destruct (trace_bind m k) as [t2 ->]
    end.
    destruct (solicitar_trace rt w (data prompt (texto_completo textos)))
      as [t3 ->].
    unfold llm_called. rewrite !existsb_app. simpl.
    now rewrite orb_true_r.
Qed.

(** ** C3 *)

Lemma fold_left_sep (sep : string) (rest : list string) : forall acc x,
  fold_left (fun a T => ((a ++ sep) ++ T)%string) rest (acc ++ x)%string
  = (acc ++ str_join sep (x :: rest))%string.
Proof.
  induction rest as [|y rest IH]; intros acc x; [reflexivity|].
  cbn [fold_left].
  rewrite !append_assoc, <- (append_assoc x sep y), <- append_assoc.
  rewrite (IH (acc ++ x ++ sep)%string y).
  now rewrite !append_assoc.
Qed.

Lemma str_join_spec (Ts : list string) : texto_completo Ts = spec_aggregate Ts.
Proof.
  destruct Ts as [|T1 rest]; [reflexivity|].
  unfold texto_completo, spec_aggregate.
  symmetry. exact (fold_left_sep (nl ++ nl) rest "" T1).
Qed.

(** When every page from [first] on yields a non-empty text, the loop
    appends these texts in page order and prints nothing. *)
Lemma iterar_all_ok rt doc (Ts : list string) : forall first acc,
  (forall k T, nth_error Ts k = Some T ->
               T <> "" /\
               ocr_page doc (first + k)
               = Val {| error_message := ""; full_text_annotation := Some T |}) ->
  iterar rt doc (seq first (length Ts)) acc = ([], Val (acc ++ Ts)).
Proof.
  induction Ts as [|T rest IH]; intros first acc Hpages; simpl.
  - unfold ret. now rewrite app_nil_r.
  - destruct (Hpages 0 T eq_refl) as [Hne Hp]. rewrite Nat.add_0_r in Hp.
    assert (Hturn : pagina rt doc first acc = ([], Val (acc ++ [T]))).
    { unfold pagina, try_except, bind, call, ret. rewrite Hp. simpl.
      now rewrite (eqb_empty_false _ Hne). }
    rewrite (bind_val _ _ _ _ Hturn), (IH (S first) (acc ++ [T])).
    + simpl. now rewrite <- app_assoc.
    + intros k T' Hk. rewrite Nat.add_succ_l, <- Nat.add_succ_r.
      now apply Hpages.
Qed.

(** C3.  When each of the [n] pages of the document yields a non-empty OCR
    text, T1..Tn in page order, the loop leaves exactly [T1; ...; Tn] in
    [textos_por_pagina], the aggregated text is
    T1 + "\n\n" + T2 + ... + "\n\n" + Tn, and (when there is a page and the
    close succeeds) the request sent to the LLM carries the prompt followed
    by that text. *)
Theorem aggregated_text_joins_pages rt w path prompt doc (Ts : list string) :
  fitz_open w path = Val doc ->
  page_count doc = length Ts ->
  (forall k T, nth_error Ts k = Some T ->
               T <> "" /\
               ocr_page doc k
               = Val {| error_message := ""; full_text_annotation := Some T |}) ->
  iterar rt doc (seq 0 (page_count doc)) [] = ([], Val Ts)
  /\ texto_completo Ts = spec_aggregate Ts
  /\ (Ts <> [] -> close doc = Val tt ->
      In (Post GEMINI_API_URL (data prompt (spec_aggregate Ts)))
         (trace (procesar_pdf_con_vision_y_gemini rt w path prompt))).
Proof.
  intros Ho Hn Hpages.
  assert (Hloop : iterar rt doc (seq 0 (page_count doc)) [] = ([], Val Ts)).
  { rewrite Hn. exact (iterar_all_ok rt doc Ts 0 [] Hpages). }
  split; [exact Hloop | split; [apply str_join_spec |]].
  intros Hne Hclose.
  assert (He : extraer rt doc = ([Close], Val Ts)).
  { unfold extraer. rewrite (bind_val _ _ _ _ Hloop). simpl.
    unfold cerrar, emit, call, bind, ret. now rewrite Hclose. }
  assert (Htxt : texto_completo Ts <> "").
  { intro Hempty. apply Hne. apply (str_join_empty (nl ++ nl)); [|exact Hempty].
    eapply extraer_nonempty. exact He. }
  unfold procesar_pdf_con_vision_y_gemini.
  destruct (trace_try_except (cuerpo rt w path prompt) (on_exception rt))
    as [t1 ->].
  rewrite (cuerpo_extrae _ _ _ _ _ _ _ Ho He), (analizar_text _ _ _ _ Htxt).
  simpl.
  match goal with
  | |- context [trace (bind ?m ?k)] => destruct (trace_bind m k) as [t2 ->]
  end.
  destruct (solicitar_trace rt w (data prompt (texto_completo Ts))) as [t3 ->].
  rewrite <- str_join_spec. simpl. right. left. reflexivity.
Qed.

Lemma pagina_map rt doc n acc :
  raises_only Exception (ocr_page doc n) ->
  pagina rt doc n acc
  = (aviso rt n (ocr_page doc n), Val (acc ++ aporte (ocr_page doc n))).
Proof.
  unfold raises_only. intro H.
  unfold pagina, aviso, aporte, pagina_str, try_except, bind, call, print,
    emit, ret, raise.
  destruct (ocr_page doc n) as [[msg [text|]]|e]; simpl.
  - destruct (String.eqb msg ""); simpl;
      [destruct (String.eqb text ""); simpl|]; now rewrite ?app_nil_r.
  - destruct (String.eqb msg ""); simpl; now rewrite app_nil_r.
  - rewrite H. simpl. now rewrite app_nil_r.
Qed.

Lemma iterar_flat_map rt doc pages : forall acc,
  (forall n, In n pages -> raises_only Exception (ocr_page doc n)) ->
  iterar rt doc pages acc
  = (flat_map (fun n => aviso rt n (ocr_page doc n)) pages,
     Val (acc ++ textos_de doc pages)).
Proof.
  unfold textos_de.
  induction pages as [|n rest IH]; intros acc H.
  - simpl. unfold ret. now rewrite app_nil_r.
  - cbn [iterar flat_map].
    rewrite (bind_val _ _ _ _ (pagina_map rt doc n acc (H n (or_introl eq_refl)))).
    rewrite IH by (intros m Hm; apply H; now right).
    simpl. now rewrite app_assoc.
Qed.

(** Leaving out the pages that add nothing does not change the texts. *)
Lemma textos_de_filter doc (keep : nat -> bool) (pages : list nat) :
  (forall n, keep n = false -> aporte (ocr_page doc n) = []) ->
  textos_de doc pages = textos_de doc (filter keep pages).
Proof.
  intro H. unfold textos_de. induction pages as [|n rest IH]; [reflexivity|].
  simpl. destruct (keep n) eqn:Hk; simpl; rewrite IH; [reflexivity|].
  now rewrite (H n Hk).
Qed.

Lemma seq_split2 (n i j : nat) :
  i < j -> j < n ->
  seq 0 n = seq 0 i ++ i :: seq (S i) (j - S i) ++ j :: seq (S j) (n - S j).
Proof.
  intros Hij Hjn.
  replace n with (i + (S (j - S i) + S (n - S j))) at 1 by lia.
  rewrite seq_app, seq_app. cbn [seq Nat.add].
  replace (i + S (j - S i)) with j by lia. reflexivity.
Qed.

(** Two pages other than [k] keep their order among the other pages. *)
Lemma otras_paginas_split doc (k i j : nat) :
  i < j -> j < page_count doc -> i <> k -> j <> k ->
  exists a b c, otras_paginas doc k = a ++ i :: b ++ j :: c.
Proof.
  intros Hij Hj Hik Hjk. unfold otras_paginas.
  rewrite (seq_split2 (page_count doc) i j Hij Hj).
  rewrite filter_app. cbn [filter]. rewrite filter_app. cbn [filter].
  apply Nat.eqb_neq in Hik, Hjk. rewrite Hik, Hjk. cbn [negb].
  eexists _, _, _. reflexivity.
Qed.

Lemma aporte_ok (T : string) :
  T <> "" ->
  aporte (Val {| error_message := ""; full_text_annotation := Some T |}) = [T].
Proof. intro H. unfold aporte. simpl. now rewrite (eqb_empty_false _ H). Qed.

(** ** C8 *)

(** C8.  When the OCR service reports an error for page [k] (and no page
    raises outside [Exception], so that the loop is not left), page [k] adds
    nothing to [textos_por_pagina] and a warning is printed for it; the loop
    goes on and ends with exactly the texts of the other pages, in page
    order: every other page that yields a non-empty text without error has
    its text kept, and of two such pages the earlier one comes first.  When
    the close succeeds, the aggregated text is these texts joined by two
    newlines, T1 + "\n\n" + ... + Tn, and it is what the request to the LLM
    carries after the prompt. *)
Theorem failed_page_is_skipped rt w path prompt doc k r :
  fitz_open w path = Val doc ->
  k < page_count doc ->
  ocr_page doc k = Val r ->
  error_message r <> "" ->
  (forall n, n < page_count doc -> raises_only Exception (ocr_page doc n)) ->
  (forall A,
     pagina rt doc k A
     = ([Print ("Advertencia: Error en OCR de la página "
                ++ format_value rt (PInt (Z.of_nat k + 1)) ++ ": "
                ++ error_message r)],
        Val A))
  /\ (exists t,
        iterar rt doc (seq 0 (page_count doc)) []
        = (t, Val (textos_de doc (otras_paginas doc k)))
        /\ In (Print ("Advertencia: Error en OCR de la página "
                      ++ format_value rt (PInt (Z.of_nat k + 1)) ++ ": "
                      ++ error_message r)) t)
  /\ (forall j T,
        j < page_count doc -> j <> k ->
        ocr_page doc j
        = Val {| error_message := ""; full_text_annotation := Some T |} ->
        T <> "" ->
        In T (textos_de doc (otras_paginas doc k)))
  /\ (forall i j Ti Tj,
        i < j -> j < page_count doc -> i <> k -> j <> k ->
        ocr_page doc i
        = Val {| error_message := ""; full_text_annotation := Some Ti |} ->
        ocr_page doc j
        = Val {| error_message := ""; full_text_annotation := Some Tj |} ->
        Ti <> "" -> Tj <> "" ->
        exists l1 l2 l3,
          textos_de doc (otras_paginas doc k) = l1 ++ Ti :: l2 ++ Tj :: l3)
  /\ (close doc = Val tt ->
      (exists tr,
         extraer rt doc = (tr, Val (textos_de doc (otras_paginas doc k))))
      /\ texto_completo (textos_de doc (otras_paginas doc k))
         = spec_aggregate (textos_de doc (otras_paginas doc k))
      /\ (textos_de doc (otras_paginas doc k) <> [] ->
          In (Post GEMINI_API_URL
                (PDict [("contents",
                         PList [PDict [("parts",
                                        PList [PDict [("text",
                                          PStr (prompt
                                                ++ spec_aggregate
                                                     (textos_de doc
                                                        (otras_paginas doc k))))]])]])]))
             (trace (procesar_pdf_con_vision_y_gemini rt w path prompt)))).
Proof.
  intros Ho Hk Hp Herr Hpages.
  assert (Hk_adds : aporte (ocr_page doc k) = []).
  { rewrite Hp. unfold aporte. now rewrite (eqb_empty_false _ Herr). }
  assert (Hk_warns : aviso rt k (ocr_page doc k)
     = [Print ("Advertencia: Error en OCR de la página "
               ++ format_value rt (PInt (Z.of_nat k + 1)) ++ ": "
               ++ error_message r)]).
  { rewrite Hp. unfold aviso. now rewrite (eqb_empty_false _ Herr). }
  assert (Hloop : iterar rt doc (seq 0 (page_count doc)) []
     = (flat_map (fun n => aviso rt n (ocr_page doc n)) (seq 0 (page_count doc)),
        Val (textos_de doc (otras_paginas doc k)))).
  { rewrite iterar_flat_map by (intros n Hn; apply Hpages; now apply in_seq in Hn).
    simpl. unfold otras_paginas. f_equal. f_equal.
    apply textos_de_filter. intros n Hn.
    apply negb_false_iff, Nat.eqb_eq in Hn. now subst. }
  assert (Hkeep : forall j, j < page_count doc -> j <> k ->
                            In j (otras_paginas doc k)).
  { intros j Hj Hjk. unfold otras_paginas. apply filter_In. split.
    - apply in_seq. lia.
    - now apply negb_true_iff, Nat.eqb_neq. }
  split; [|split; [|split; [|split]]].
  - intro A. rewrite pagina_map by (apply Hpages; exact Hk).
    now rewrite Hk_warns, Hk_adds, app_nil_r.
  - eexists. split; [exact Hloop|].
    apply in_flat_map. exists k. split; [apply in_seq; lia|].
    rewrite Hk_warns. now left.
  - intros j T Hj Hjk Hpj HT. unfold textos_de. apply in_flat_map.
    exists j. split; [now apply Hkeep|].
    rewrite Hpj, (aporte_ok _ HT). now left.
  - intros i j Ti Tj Hij Hj Hik Hjk Hpi Hpj HTi HTj.
    destruct (otras_paginas_split doc k i j Hij Hj Hik Hjk) as (a & b & c & ->).
    unfold textos_de. rewrite flat_map_app. cbn [flat_map].
    rewrite flat_map_app. cbn [flat_map].
    rewrite Hpi, Hpj, (aporte_ok _ HTi), (aporte_ok _ HTj). cbn [app].
    eexists _, _, _. reflexivity.
  - intro Hclose.
    assert (He : extraer rt doc
       = (flat_map (fun n => aviso rt n (ocr_page doc n)) (seq 0 (page_count doc))
          ++ [Close],
          Val (textos_de doc (otras_paginas doc k)))).
    { unfold extraer. rewrite (bind_val _ _ _ _ Hloop).
      unfold cerrar, emit, call, bind, ret. now rewrite Hclose. }
    split; [eexists; exact He | split; [apply str_join_spec |]].
    intro Hne.
    assert (Htxt : texto_completo (textos_de doc (otras_paginas doc k)) <> "").
    { intro Hempty. apply Hne.
      apply (str_join_empty (nl ++ nl)); [|exact Hempty].
      eapply extraer_nonempty. exact He. }
    unfold procesar_pdf_con_vision_y_gemini.
    destruct (trace_try_except (cuerpo rt w path prompt) (on_exception rt))
      as [t1 ->].
    rewrite (cuerpo_extrae _ _ _ _ _ _ _ Ho He), (analizar_text _ _ _ _ Htxt).
    simpl.
    match goal with
    | |- context [trace (bind ?m ?k)] => destruct (trace_bind m k) as [t2 ->]
    end.
    destruct (solicitar_trace rt w
                (data prompt (texto_completo (textos_de doc (otras_paginas doc k)))))
      as [t3 ->].
    rewrite <- str_join_spec.
    apply in_or_app. left. apply in_or_app. right. apply in_or_app. left.
    left. reflexivity.
Qed.

(** *** From the request to the result *)

Lemma append_empty_r (s : string) : (s ++ "")%string = s.
Proof. induction s as [|c s IH]; simpl; [reflexivity | now rewrite IH]. Qed.

Lemma contiene_refl (s : string) : contiene s s.
Proof. exists "", "". simpl. now rewrite append_empty_r. Qed.

Lemma contiene_app_r (p t sub : string) :
  contiene t sub -> contiene (p ++ t) sub.
Proof.
  intros (b & a & ->). exists (p ++ b)%string, a. now rewrite append_assoc.
Qed.

Lemma contiene_app_l (t q sub : string) :
  contiene t sub -> contiene (t ++ q) sub.
Proof.
  intros (b & a & ->). exists b, (a ++ q)%string. now rewrite !append_assoc.
Qed.

Lemma result_bind {A B} (m : M A) (k : A -> M B) :
  result (bind m k)
  = match result m with Val a => result (k a) | Exc e => Exc e end.
Proof.
  destruct m as [t [a|e]]; unfold bind; simpl; [|reflexivity].
  now destruct (k a).
Qed.

Lemma result_try_except {A} (m : M A) (h : exn -> M A) :
  result (try_except m h)
  = match result m with Val a => Val a | Exc e => result (h e) end.
Proof.
  destruct m as [t [a|e]]; unfold try_except; simpl; [reflexivity|].
  now destruct (h e).
Qed.

Lemma result_solicita rt w path prompt o :
  solicita rt w path prompt o ->
  result (procesar_pdf_con_vision_y_gemini rt w path prompt)
  = result (try_except (bind (recibir rt o) (concluir rt)) (on_exception rt)).
Proof.
  intros (doc & tr & textos & Ho & He & Htxt & Hpost).
  unfold procesar_pdf_con_vision_y_gemini.
  rewrite !result_try_except.
  rewrite (cuerpo_extrae _ _ _ _ _ _ _ Ho He), (analizar_text _ _ _ _ Htxt).
  simpl. unfold solicitar. rewrite Hpost.
  rewrite !result_bind. simpl. reflexivity.
Qed.

Lemma result_responde rt w path prompt response_json :
  responde rt w path prompt response_json ->
  result (procesar_pdf_con_vision_y_gemini rt w path prompt)
  = result (try_except (procesar_respuesta rt response_json) (on_exception rt)).
Proof.
  intros (r & Hs & Hst & Hj).
  rewrite (result_solicita _ _ _ _ _ Hs).
  unfold recibir. rewrite Hst, Hj. now rewrite bind_ret_l.
Qed.

Ltac run_respuesta :=
  unfold procesar_respuesta, try_except, bind, call, ret, method_get, item_0,
    item_str; simpl.

(** ** C2 *)

(** C2.  When the response body has a non-empty ['candidates'] list whose
    first element has a ['content'] object with a non-empty ['parts'] list
    whose first element has a ['text'] field, the function returns the value
    of that field as it is. *)
Theorem well_formed_answer_is_returned rt w path prompt
    top c0 cs content p0 ps (t : pyval) :
  responde rt w path prompt (PDict top) ->
  dict_lookup "candidates" top = Some (PList (PDict c0 :: cs)) ->
  dict_lookup "content" c0 = Some (PDict content) ->
  dict_lookup "parts" content = Some (PList (PDict p0 :: ps)) ->
  dict_lookup "text" p0 = Some t ->
  result (procesar_pdf_con_vision_y_gemini rt w path prompt) = Val t.
Proof.
  intros Hr Hc Hcont Hparts Htext.
  rewrite (result_responde _ _ _ _ _ Hr).
  run_respuesta. rewrite Hc. simpl. rewrite Hcont. simpl.
  rewrite Hparts. simpl. rewrite Htext. reflexivity.
Qed.

(** ** C5 *)

(** C5.  When the response body is an object without a ['candidates'] key,
    the function returns the "sin 'candidates'" error string. *)
Theorem missing_candidates_is_reported rt w path prompt top :
  responde rt w path prompt (PDict top) ->
  dict_lookup "candidates" top = None ->
  result (procesar_pdf_con_vision_y_gemini rt w path prompt)
  = Val (PStr "Error: Respuesta de Gemini sin 'candidates'.").
Proof.
  intros Hr Hc. rewrite (result_responde _ _ _ _ _ Hr).
  run_respuesta. rewrite Hc. reflexivity.
Qed.

(** ** C6 *)

(** C6, as amended.  When ['candidates'] is a non-empty list whose first
    element has a ['content'] object and that object has no ['parts'] key,
    the function returns the "sin 'parts'" error string. *)
Theorem missing_parts_is_reported rt w path prompt top c0 cs content :
  responde rt w path prompt (PDict top) ->
  dict_lookup "candidates" top = Some (PList (PDict c0 :: cs)) ->
  dict_lookup "content" c0 = Some (PDict content) ->
  dict_lookup "parts" content = None ->
  result (procesar_pdf_con_vision_y_gemini rt w path prompt)
  = Val (PStr "Error: Respuesta de Gemini sin 'parts'.").
Proof.
  intros Hr Hc Hcont Hparts. rewrite (result_responde _ _ _ _ _ Hr).
  run_respuesta. rewrite Hc. simpl. rewrite Hcont. simpl.
  rewrite Hparts. reflexivity.
Qed.

(** X13.  When the first candidate has no ['content'] key (so no ['parts']
    either), [candidates[0]['content']] raises [KeyError] and the handler of
    line 113 returns the whole body instead. *)
Lemma missing_content_is_dumped rt w path prompt top c0 cs :
  responde rt w path prompt (PDict top) ->
  dict_lookup "candidates" top = Some (PList (PDict c0 :: cs)) ->
  dict_lookup "content" c0 = None ->
  result (procesar_pdf_con_vision_y_gemini rt w path prompt)
  = Val (PStr ("Respuesta completa de Gemini (para depuración):" ++ nl
               ++ format_value rt (PDict top))).
Proof.
  intros Hr Hc Hcont. rewrite (result_responde _ _ _ _ _ Hr).
  run_respuesta. rewrite Hc. simpl. rewrite Hcont. reflexivity.
Qed.

(** X14.  When the body is not an object (an array, a string, a number,
    ...), [response_json.get] raises [AttributeError], which line 113 does
    not catch and line 117 does: the function returns the general error
    string. *)
Lemma non_object_body_is_general_error rt w path prompt response_json :
  responde rt w path prompt response_json ->
  (forall top, response_json <> PDict top) ->
  result (procesar_pdf_con_vision_y_gemini rt w path prompt)
  = Val (PStr ("Error general al procesar el PDF: "
               ++ fault_message rt (NoAttribute response_json "get"))).
Proof.
  intros Hr Hno. rewrite (result_responde _ _ _ _ _ Hr).
  run_respuesta. destruct response_json; try reflexivity.
  now destruct (Hno entries).
Qed.

(** ** C10 *)

(** C10.  When the first part of the first candidate's content is an object
    without a ['text'] key, the function returns the fixed fallback
    string. *)
Theorem missing_text_falls_back rt w path prompt top c0 cs content p0 ps :
  responde rt w path prompt (PDict top) ->
  dict_lookup "candidates" top = Some (PList (PDict c0 :: cs)) ->
  dict_lookup "content" c0 = Some (PDict content) ->
  dict_lookup "parts" content = Some (PList (PDict p0 :: ps)) ->
  dict_lookup "text" p0 = None ->
  result (procesar_pdf_con_vision_y_gemini rt w path prompt)
  = Val (PStr "Respuesta de Gemini sin texto.").
Proof.
  intros Hr Hc Hcont Hparts Htext.
  rewrite (result_responde _ _ _ _ _ Hr).
  run_respuesta. rewrite Hc. simpl. rewrite Hcont. simpl.
  rewrite Hparts. simpl. rewrite Htext. reflexivity.
Qed.

(** ** C4 *)

(** C4 on the code.  When [requests.post] raises a [RequestException],
    nothing was assigned to [response_gemini]; the test of line 94 raises
    [UnboundLocalError], which leaves the handler and is caught at line 117.
    The function returns the general error string with the message of that
    [UnboundLocalError], not the request error string of line 100. *)
Theorem transport_error_hits_unbound_local rt w path prompt e :
  solicita rt w path prompt (Exc e) ->
  isinstance e RequestException = true ->
  result (procesar_pdf_con_vision_y_gemini rt w path prompt)
  = Val (PStr ("Error general al procesar el PDF: "
               ++ fault_message rt (UnboundLocal "response_gemini"))).
Proof.
  intros Hs He. rewrite (result_solicita _ _ _ _ _ Hs).
  unfold recibir, except_request. rewrite He. reflexivity.
Qed.

(** ** C7 *)

(** C7.  When the status check of the response raises a [RequestException]
    (the [HTTPError] of [raise_for_status]) and the body decodes as JSON,
    the function returns a string that contains both the message of that
    exception and the formatted body. *)
Theorem http_error_reports_exception_and_body rt w path prompt r e error_data :
  solicita rt w path prompt (Val r) ->
  raise_for_status r = Exc e ->
  isinstance e RequestException = true ->
  json r = Val error_data ->
  exists s,
    result (procesar_pdf_con_vision_y_gemini rt w path prompt) = Val (PStr s)
    /\ s = ("Error en la solicitud a la API de Gemini: " ++ str_exn rt e ++ nl
            ++ "Detalles del error: " ++ format_value rt error_data)%string
    /\ contiene s (str_exn rt e)
    /\ contiene s (format_value rt error_data).
Proof.
  intros Hs Hst He Hj. eexists. split; [|split; [reflexivity|split]].
  - rewrite (result_solicita _ _ _ _ _ Hs).
    unfold recibir, except_request, on_request_exception.
    rewrite Hst, He, Hj. reflexivity.
  - apply contiene_app_r, contiene_app_l, contiene_refl.
  - do 4 apply contiene_app_r. apply contiene_refl.
Qed.

(** ** C9 *)


Lemma pagina_returns rt doc n acc :
  raises_only Exception (ocr_page doc n) ->
  exists t textos, pagina rt doc n acc = (t, Val textos).
Proof.
  unfold raises_only. intro H.
  unfold pagina, try_except, bind, call, print, emit, ret, raise.
  destruct (ocr_page doc n) as [[msg [text|]]|e]; simpl.
  - destruct (String.eqb msg ""); simpl;
      [destruct (String.eqb text ""); simpl|]; eexists; eexists; reflexivity.
  - destruct (String.eqb msg ""); simpl; eexists; eexists; reflexivity.
  - rewrite H. simpl. eexists; eexists; reflexivity.
Qed.

Lemma iterar_returns rt doc pages : forall acc,
  (forall n, raises_only Exception (ocr_page doc n)) ->
  exists t textos, iterar rt doc pages acc = (t, Val textos).
Proof.
  induction pages as [|n rest IH]; intros acc H; simpl.
  - eexists; eexists; reflexivity.
  - destruct (pagina_returns rt doc n acc (H n)) as (t1 & a & Hp).
    destruct (IH a H) as (t2 & b & Hi).
    rewrite (bind_val _ _ _ _ Hp), Hi. eexists; eexists; reflexivity.
Qed.

Ltac split_respuesta :=
  match goal with
  | |- context [dict_lookup ?k ?l] => destruct (dict_lookup k l)
  | |- context [match ?x with _ => _ end] => is_var x; destruct x
  | |- context [if ?b then _ else _] => destruct b
  end.

(** Lines 103-115 return a string, or the ['text'] of the first part, or
    raise a fault of the interpreter. *)
Lemma procesar_respuesta_result rt response_json :
  match result (procesar_respuesta rt response_json) with
  | Val v => es_cadena v = true \/ primer_texto response_json = Some v
  | Exc e => isinstance e Exception = true
  end.
Proof.
  unfold procesar_respuesta, try_except, bind, call, ret, raise, print, emit,
    method_get, item_0, item_str, primer_texto, truthy.
  destruct response_json; simpl; try reflexivity.
  repeat (split_respuesta; simpl; auto).
Qed.

Lemma recibir_result rt w path prompt o :
  solicita rt w path prompt o ->
  raises_only Exception o ->
  (forall r, o = Val r ->
     raises_only Exception (raise_for_status r)
     /\ raises_only Exception (json r)) ->
  termina_bien rt w path prompt (result (bind (recibir rt o) (concluir rt))).
Proof.
  intros Hs Ho Hr. rewrite result_bind. unfold recibir.
  destruct o as [r|e].
  - destruct (Hr r eq_refl) as [Hst Hj].
    assert (Hhandler : forall e, raises_only Exception (Exc (A:=unit) e) ->
      termina_bien rt w path prompt
        match result (except_request rt e (Bound (Some r))) with
        | Val a => result (concluir rt a)
        | Exc e0 => Exc e0
        end).
    { intros e He. unfold except_request, on_request_exception.
      destruct (isinstance e RequestException); simpl; [|exact He].
      destruct (json r) as [error_data|ej]; simpl; [now left|].
      destruct (isinstance ej JSONDecodeError); simpl; [now left | exact Hj]. }
    destruct (raise_for_status r) as [[]|es] eqn:Hs1; [|now apply Hhandler].
    destruct (json r) as [response_json|ej] eqn:Hj1; [|now apply Hhandler].
    simpl.
    pose proof (procesar_respuesta_result rt response_json) as Hp.
    destruct (result (procesar_respuesta rt response_json)) as [v|e];
      simpl; [|exact Hp].
    destruct Hp as [Hstr|Htext]; [now left | right].
    exists response_json. split; [|exact Htext]. now exists r.
  - unfold except_request.
    destruct (isinstance e RequestException); simpl; [reflexivity | exact Ho].
Qed.

Lemma cuerpo_result rt w path prompt :
  sin_interrupciones w path ->
  termina_bien rt w path prompt (result (cuerpo rt w path prompt)).
Proof.
  intros [Hopen Hdoc]. unfold cuerpo.
  destruct (fitz_open w path) as [doc|e] eqn:Ho.
  - destruct (Hdoc doc eq_refl) as (Hpages & Hclose & Hpost).
    rewrite (bind_val _ _ _ _ (abrir_val rt w path doc Ho)). simpl.
    destruct (iterar_returns rt doc (seq 0 (page_count doc)) [] Hpages)
      as (t & textos & Hi).
    destruct (close doc) as [[]|ec] eqn:Hc.
    + assert (He : extraer rt doc = (t ++ [Close], Val textos)).
      { unfold extraer. rewrite (bind_val _ _ _ _ Hi).
        unfold cerrar, emit, call, bind, ret. now rewrite Hc. }
      rewrite result_bind, He. simpl.
      destruct (String.eqb (texto_completo textos) "") eqn:Htxt.
      * unfold analizar. rewrite Htxt. now left.
      * apply String.eqb_neq in Htxt.
        rewrite (analizar_text _ _ _ _ Htxt). unfold solicitar.
        rewrite bind_assoc, result_bind. simpl.
        destruct (Hpost (data prompt (texto_completo textos))) as [Hp Hr].
        apply recibir_result; [|exact Hp|].
        -- now exists doc, (t ++ [Close]), textos.
        -- intros r Hr0. now apply Hr.
    + rewrite result_bind. unfold extraer. rewrite (bind_val _ _ _ _ Hi).
      unfold cerrar, emit, call, bind, ret. rewrite Hc. simpl. exact Hclose.
  - unfold abrir, try_except, bind, call, ret, raise. rewrite Ho. simpl.
    destruct (isinstance e FitzFileNotFoundError); simpl; [now left|].
    destruct (fitz_fitz_exists w); simpl; [|reflexivity].
    simpl in Hopen. rewrite Hopen. simpl. now left.
Qed.

(** C9, as amended.  When every exception a library call raises derives
    from [Exception], any exception that leaves the body of the outer [try]
    is caught at line 117 and turned into the general error string, and the
    function returns a value: a string on every path but line 108, where it
    returns the ['text'] of the first part of the response as it found it. *)
Theorem exceptions_become_strings rt w path prompt :
  sin_interrupciones w path ->
  (forall e, result (cuerpo rt w path prompt) = Exc e ->
     result (procesar_pdf_con_vision_y_gemini rt w path prompt)
     = Val (PStr ("Error general al procesar el PDF: " ++ str_exn rt e)))
  /\ exists v,
       result (procesar_pdf_con_vision_y_gemini rt w path prompt) = Val v
       /\ (es_cadena v = true
           \/ exists response_json,
                responde rt w path prompt response_json
                /\ primer_texto response_json = Some v).
Proof.
  intro Hw. pose proof (cuerpo_result rt w path prompt Hw) as Hb.
  unfold procesar_pdf_con_vision_y_gemini. rewrite result_try_except.
  destruct (result (cuerpo rt w path prompt)) as [v|e]; simpl in Hb.
  - split; [discriminate|]. now exists v.
  - unfold on_exception. rewrite Hb. simpl. split.
    + intros e' He'. now inversion He'.
    + eexists. split; [reflexivity | now left].
Qed.

(** A request is sent only by a run that reached line 73 with a non-empty
    [texto_completo]. *)
Lemma llm_called_after_text rt w path prompt :
  llm_called (trace (procesar_pdf_con_vision_y_gemini rt w path prompt)) = true ->
  exists doc tr textos,
    fitz_open w path = Val doc
    /\ extraer rt doc = (tr, Val textos)
    /\ texto_completo textos <> "".
Proof.
  unfold procesar_pdf_con_vision_y_gemini, cuerpo.
  destruct (fitz_open w path) as [doc|e] eqn:Ho.
  - rewrite (bind_val _ _ _ _ (abrir_val rt w path doc Ho)). simpl.
    pose proof (extraer_no_post rt doc) as Hn.
    destruct (extraer rt doc) as [tr [textos|ee]] eqn:He.
    + rewrite (bind_val _ _ _ _ eq_refl).
      destruct (String.eqb (texto_completo textos) "") eqn:Htxt.
      * unfold analizar. rewrite Htxt. unfold try_except, ret. simpl.
        rewrite app_nil_r. simpl in Hn. congruence.
      * intros _. exists doc, tr, textos.
        split; [reflexivity | split; [exact He | now apply String.eqb_neq]].
    + rewrite (bind_exc _ _ _ _ eq_refl). simpl.
      rewrite (try_except_exc _ _ _ _ eq_refl).
      unfold on_exception.
      destruct (isinstance ee Exception); unfold ret, raise; simpl;
        rewrite app_nil_r; simpl in Hn; congruence.
  - unfold abrir, try_except, bind, call, ret, raise, on_exception.
    rewrite Ho. simpl.
    destruct (isinstance e FitzFileNotFoundError); simpl;
      [intro H; discriminate H|].
    destruct (fitz_fitz_exists w); simpl; [|intro H; discriminate H].
    destruct (isinstance e Exception) eqn:Hex; simpl; rewrite ?Hex;
      unfold ret, raise; simpl; intro H; discriminate H.
Qed.

(* ================================================================== *)
(** ** The statements at concrete runs *)
(* ================================================================== *)

Import CPython Examples.

(** Discharges [solicita] on a concrete world by running the model. *)
Ltac run_solicita :=
  eexists; eexists; eexists;
  split; [reflexivity |
  split; [reflexivity |
  split; [let H := fresh in intro H; vm_compute in H; discriminate H
        | reflexivity]]].

Ltac run_responde :=
  eexists; split; [run_solicita | split; reflexivity].

(** C1 on a document whose two pages yield no text. *)
Lemma empty_text_short_circuits_witness :
  procesar_pdf_con_vision_y_gemini cpython w_blank pdf prompt
  = ([Print "Advertencia: No se pudo extraer texto de la página 1.";
      Print "Advertencia: Error en OCR de la página 2: Bad image data.";
      Close],
     Val (PStr "Advertencia: No se pudo extraer texto de ninguna página del PDF."))
  /\ llm_called
       [Print "Advertencia: No se pudo extraer texto de la página 1.";
        Print "Advertencia: Error en OCR de la página 2: Bad image data.";
        Close] = false.
Proof.
  exact (proj1 (proj2 (empty_text_short_circuits cpython w_blank pdf prompt
                         (doc_of blank_pages) _ [] eq_refl eq_refl)) eq_refl).
Defined.

(** C3 on the two-page document. *)
Lemma aggregated_text_joins_pages_witness :
  iterar cpython (doc_of two_pages) (seq 0 2) []
  = ([], Val ["ATIVO TOTAL 1.234"; "31/12/2023"])
  /\ texto_completo ["ATIVO TOTAL 1.234"; "31/12/2023"]
     = spec_aggregate ["ATIVO TOTAL 1.234"; "31/12/2023"]
  /\ (["ATIVO TOTAL 1.234"; "31/12/2023"] <> [] ->
      close (doc_of two_pages) = Val tt ->
      In (Post GEMINI_API_URL
            (data prompt (spec_aggregate ["ATIVO TOTAL 1.234"; "31/12/2023"])))
         (trace (procesar_pdf_con_vision_y_gemini cpython w_answer pdf prompt))).
Proof.
  apply (aggregated_text_joins_pages cpython w_answer pdf prompt
           (doc_of two_pages) ["ATIVO TOTAL 1.234"; "31/12/2023"]).
  - reflexivity.
  - reflexivity.
  - intros k T Hk. destruct k as [|[|k]]; simpl in Hk.
    + inversion Hk; subst. split; [discriminate | reflexivity].
    + inversion Hk; subst. split; [discriminate | reflexivity].
    + destruct k; discriminate Hk.
Defined.

(** C8 on a three-page document whose second page fails. *)
Lemma failed_page_is_skipped_witness :
  (exists t,
     iterar cpython doc_bad_page (seq 0 3) [] = (t, Val ["uno"; "tres"])
     /\ In (Print "Advertencia: Error en OCR de la página 2: Bad image data.") t)
  /\ texto_completo ["uno"; "tres"] = ("uno" ++ nl ++ nl ++ "tres")%string
  /\ In (Post GEMINI_API_URL
           (PDict [("contents",
                    PList [PDict [("parts",
                                   PList [PDict [("text",
                                     PStr (prompt ++ "uno" ++ nl ++ nl ++ "tres"))]])]])]))
        (trace (procesar_pdf_con_vision_y_gemini cpython w_bad_page pdf prompt)).
Proof.
  destruct (failed_page_is_skipped cpython w_bad_page pdf prompt doc_bad_page 1
              {| error_message := "Bad image data.";
                 full_text_annotation := None |})
    as (_ & Hloop & _ & _ & Hclose).
  - reflexivity.
  - simpl. lia.
  - reflexivity.
  - simpl. discriminate.
  - intros n Hn. destruct n as [|[|[|n]]]; simpl; try exact I.
    simpl in Hn. lia.
  - destruct (Hclose eq_refl) as (_ & Hjoin & Hpost).
    split; [exact Hloop | split; [exact Hjoin |]].
    apply Hpost. discriminate.
Defined.

(** C2 on the response of section 6 of the specification. *)
Lemma well_formed_answer_is_returned_witness :
  result (procesar_pdf_con_vision_y_gemini cpython w_answer pdf prompt)
  = Val (PStr "1.234").
Proof.
  eapply (well_formed_answer_is_returned cpython w_answer pdf prompt);
    [run_responde | reflexivity ..].
Defined.

(** C5 on a response that only carries prompt feedback. *)
Lemma missing_candidates_is_reported_witness :
  result (procesar_pdf_con_vision_y_gemini cpython w_no_candidates pdf prompt)
  = Val (PStr "Error: Respuesta de Gemini sin 'candidates'.").
Proof.
  eapply (missing_candidates_is_reported cpython w_no_candidates pdf prompt);
    [run_responde | reflexivity].
Defined.

(** C6, as amended, on a response whose content has a role but no parts. *)
Lemma missing_parts_is_reported_witness :
  result (procesar_pdf_con_vision_y_gemini cpython w_no_parts pdf prompt)
  = Val (PStr "Error: Respuesta de Gemini sin 'parts'.").
Proof.
  eapply (missing_parts_is_reported cpython w_no_parts pdf prompt);
    [run_responde | reflexivity ..].
Defined.

(** C6 as stated fails: the first candidate of this response has no
    ['parts'] (it has no ['content'] at all), ['candidates'] is present and
    not empty, and the function returns the dump of the body, not the
    "sin 'parts'" string. *)
Lemma missing_content_counterexample :
  responde cpython w_no_content pdf prompt
    (PDict [("candidates", PList [PDict [("finishReason", PStr "SAFETY")]])])
  /\ result (procesar_pdf_con_vision_y_gemini cpython w_no_content pdf prompt)
     = Val (PStr ("Respuesta completa de Gemini (para depuración):" ++ nl
                  ++ "{'candidates': [{'finishReason': 'SAFETY'}]}"))
  /\ result (procesar_pdf_con_vision_y_gemini cpython w_no_content pdf prompt)
     <> Val (PStr "Error: Respuesta de Gemini sin 'parts'.").
Proof.
  split; [run_responde | split; [reflexivity |]].
  intro H. vm_compute in H. discriminate H.
Qed.

(** C10 on a response whose first part carries inline data only. *)
Lemma missing_text_falls_back_witness :
  result (procesar_pdf_con_vision_y_gemini cpython w_no_text pdf prompt)
  = Val (PStr "Respuesta de Gemini sin texto.").
Proof.
  eapply (missing_text_falls_back cpython w_no_text pdf prompt);
    [run_responde | reflexivity ..].
Defined.

(** C4 at the failing input: the network is down. *)
Lemma transport_error_hits_unbound_local_witness :
  result (procesar_pdf_con_vision_y_gemini cpython w_offline pdf prompt)
  = Val (PStr ("Error general al procesar el PDF: cannot access local variable "
               ++ "'response_gemini' where it is not associated with a value")).
Proof.
  apply (transport_error_hits_unbound_local cpython w_offline pdf prompt e_offline);
    [run_solicita | reflexivity].
Defined.

(** The request error string of line 100, which the function does not
    return there. *)
Lemma transport_error_is_not_reported :
  result (procesar_pdf_con_vision_y_gemini cpython w_offline pdf prompt)
  <> Val (PStr ("Error en la solicitud a la API de Gemini: "
                ++ str_exn cpython e_offline)).
Proof. intro H. vm_compute in H. discriminate H. Qed.

(** C7 on a 400 response with a JSON error body. *)
Lemma http_error_reports_exception_and_body_witness :
  exists s,
    result (procesar_pdf_con_vision_y_gemini cpython w_400 pdf prompt)
    = Val (PStr s)
    /\ contiene s "400 Client Error: Bad Request for url"
    /\ contiene s "{'error': {'code': 400, 'status': 'INVALID_ARGUMENT'}}".
Proof.
  destruct (http_error_reports_exception_and_body cpython w_400 pdf prompt
              {| raise_for_status := Exc e_400; json := Val rj_error;
                 status_code := 400; text := "" |} e_400 rj_error)
    as (s & Hrun & _ & He & Hbody);
    [run_solicita | reflexivity | reflexivity | reflexivity |].
  exists s. split; [exact Hrun | split; [exact He | exact Hbody]].
Defined.

(** C9 as stated fails twice over: a response whose first part holds a
    number under ['text'] makes the function return that number, and an
    interrupt raised during a page leaves the function, since line 117
    catches [Exception] only. *)
Lemma result_is_not_always_a_string :
  result (procesar_pdf_con_vision_y_gemini cpython w_text_number pdf prompt)
  = Val (PInt 5)
  /\ result (procesar_pdf_con_vision_y_gemini cpython w_interrupt pdf prompt)
     = Exc (Lib KeyboardInterrupt "").
Proof. split; reflexivity. Qed.

(** C9, as amended, on the run whose request fails in the network. *)
Lemma exceptions_become_strings_witness :
  exists v,
    result (procesar_pdf_con_vision_y_gemini cpython w_offline pdf prompt) = Val v
    /\ (es_cadena v = true
        \/ exists response_json,
             responde cpython w_offline pdf prompt response_json
             /\ primer_texto response_json = Some v).
Proof.
  apply (exceptions_become_strings cpython w_offline pdf prompt).
  split; [exact I |].
  intros doc Hdoc. inversion Hdoc; subst. split; [|split].
  - intro n. destruct n as [|[|n]]; simpl; try exact I.
    destruct n; reflexivity.
  - exact I.
  - intro body. split; [reflexivity |]. intros r Hr. discriminate Hr.
Defined.

(* ================================================================== *)
(** ** More of the function: the paths around the main one *)
(* ================================================================== *)

(** *** Opening the document *)

(** X1.  When [fitz.open] raises [fitz.fitz.FileNotFoundError], the function
    returns the "No se encontró" string with the path in it, and does nothing
    else: no page is read, nothing is printed, closed or sent. *)
Theorem missing_file_is_reported rt w path prompt e :
  fitz_open w path = Exc e ->
  isinstance e FitzFileNotFoundError = true ->
  procesar_pdf_con_vision_y_gemini rt w path prompt
  = ([], Val (PStr ("Error: No se encontró el archivo PDF en la ruta: " ++ path))).
Proof.
  intros Ho He.
  unfold procesar_pdf_con_vision_y_gemini, cuerpo, abrir, try_except, bind,
    call, ret.
  rewrite Ho. simpl. rewrite He. reflexivity.
Qed.

(** X2.  When [fitz.open] raises an exception that is not an instance of
    [fitz.fitz.FileNotFoundError], the function does nothing but answer,
    and what it answers depends on the installed PyMuPDF.  Where it has the
    submodule [fitz.fitz], an exception deriving from [Exception] gives
    "Error al abrir el PDF: " followed by its text, and any other exception
    leaves the function.  Where it has none, the class expression of
    line 35 raises [AttributeError] whatever [fitz.open] raised, and the
    function returns the general error string of line 118 with the text of
    that [AttributeError]. *)
Theorem open_failure_is_reported rt w path prompt e :
  fitz_open w path = Exc e ->
  isinstance e FitzFileNotFoundError = false ->
  procesar_pdf_con_vision_y_gemini rt w path prompt
  = ([],
     if fitz_fitz_exists w then
       if isinstance e Exception then
         Val (PStr ("Error al abrir el PDF: " ++ str_exn rt e))
       else Exc e
     else
       Val (PStr ("Error general al procesar el PDF: "
                  ++ fault_message rt (NoModuleAttribute "fitz" "fitz")))).
Proof.
  intros Ho Hnf.
  unfold procesar_pdf_con_vision_y_gemini, cuerpo, abrir, try_except, bind,
    call, ret, raise, on_exception.
  rewrite Ho. simpl. rewrite Hnf. simpl.
  destruct (fitz_fitz_exists w); simpl; [|reflexivity].
  destruct (isinstance e Exception) eqn:He; simpl; [reflexivity|].
  now rewrite He.
Qed.

(** *** The page loop as a map over the pages *)

Lemma page_counts_once rt n (o : outcome vision_response) :
  raises_only Exception o ->
  length (aviso rt n o) + length (aporte o) = 1.
Proof.
  unfold raises_only, aviso, aporte. intro H.
  destruct o as [[msg [text|]]|e]; simpl.
  - destruct (String.eqb msg ""); simpl; [|reflexivity].
    destruct (String.eqb text ""); reflexivity.
  - destruct (String.eqb msg ""); reflexivity.
  - now rewrite H.
Qed.

(** X3.  When no page of [pages] raises outside [Exception], the loop ends
    normally; it leaves in [textos_por_pagina], after what was there and in
    page order, the non-empty annotation text of every page whose response
    carries no error message, and prints one line for every other page: each
    page is either kept or reported, never both. *)
Theorem loop_keeps_texts_in_page_order rt doc pages : forall acc,
  (forall n, In n pages -> raises_only Exception (ocr_page doc n)) ->
  iterar rt doc pages acc
  = (flat_map (fun n => aviso rt n (ocr_page doc n)) pages,
     Val (acc ++ flat_map (fun n => aporte (ocr_page doc n)) pages))
  /\ length (flat_map (fun n => aviso rt n (ocr_page doc n)) pages)
     + length (flat_map (fun n => aporte (ocr_page doc n)) pages)
     = length pages.
Proof.
  induction pages as [|n rest IH]; intros acc H.
  - simpl. unfold ret. now rewrite app_nil_r.
  - assert (Hn : raises_only Exception (ocr_page doc n)) by (apply H; now left).
    destruct (IH (acc ++ aporte (ocr_page doc n))) as [Hrun Hlen].
    { intros m Hm. apply H. now right. }
    split.
    + cbn [iterar flat_map].
      rewrite (bind_val _ _ _ _ (pagina_map rt doc n acc Hn)), Hrun.
      simpl. now rewrite app_assoc.
    + cbn [flat_map]. rewrite !length_app.
      pose proof (page_counts_once rt n (ocr_page doc n) Hn). simpl. lia.
Qed.

Lemma pagina_prints rt doc n acc :
  forallb is_print (trace (pagina rt doc n acc)) = true.
Proof. pagina_cases doc n; reflexivity. Qed.

Lemma iterar_prints rt doc pages : forall acc,
  forallb is_print (trace (iterar rt doc pages acc)) = true.
Proof.
  induction pages as [|n rest IH]; intro acc; simpl; [reflexivity|].
  pose proof (pagina_prints rt doc n acc) as Hp.
  destruct (pagina rt doc n acc) as [t [textos|e]]; unfold bind; simpl in *;
    [|assumption].
  specialize (IH textos). destruct (iterar rt doc rest textos) as [t' r]; simpl in *.
  rewrite forallb_app, Hp, IH. reflexivity.
Qed.

(** X4.  When a page raises outside [Exception] (an interrupt), the loop
    stops there and the exception leaves the function: the later pages are
    not read, the document is not closed, no request is sent, and the trace
    holds only the lines printed for the pages before. *)
Theorem interrupt_leaves_the_function rt w path prompt doc k e t1 (A : list string) :
  fitz_open w path = Val doc ->
  k < page_count doc ->
  iterar rt doc (seq 0 k) [] = (t1, Val A) ->
  ocr_page doc k = Exc e ->
  isinstance e Exception = false ->
  procesar_pdf_con_vision_y_gemini rt w path prompt = (t1, Exc e)
  /\ forallb is_print t1 = true.
Proof.
  intros Ho Hk Hbefore Hp He. split.
  - assert (Hturn : pagina rt doc k A = ([], Exc e)).
    { unfold pagina, try_except, bind, call, raise. rewrite Hp. simpl.
      now rewrite He. }
    assert (Hloop : iterar rt doc (seq 0 (page_count doc)) [] = (t1, Exc e)).
    { replace (page_count doc) with (k + S (page_count doc - S k)) by lia.
      rewrite seq_app, iterar_app, (bind_val _ _ _ _ Hbefore). simpl.
      rewrite (bind_exc _ _ _ _ Hturn). simpl. now rewrite app_nil_r. }
    assert (Hex : extraer rt doc = (t1, Exc e)).
    { unfold extraer. now rewrite (bind_exc _ _ _ _ Hloop). }
    unfold procesar_pdf_con_vision_y_gemini, cuerpo.
    rewrite (bind_val _ _ _ _ (abrir_val rt w path doc Ho)). simpl.
    rewrite (bind_exc _ _ _ _ Hex). simpl.
    rewrite (try_except_exc _ _ _ _ eq_refl).
    unfold on_exception. rewrite He. unfold raise. simpl.
    now rewrite app_nil_r.
  - pose proof (iterar_prints rt doc (seq 0 k) []) as H.
    now rewrite Hbefore in H.
Qed.

(** X5.  When the loop ends but [doc.close()] raises an exception deriving
    from [Exception], the texts read so far are dropped: the function
    returns the general error string with the text of that exception, and
    no request is sent. *)
Theorem close_failure_is_general_error rt w path prompt doc t textos e :
  fitz_open w path = Val doc ->
  iterar rt doc (seq 0 (page_count doc)) [] = (t, Val textos) ->
  close doc = Exc e ->
  isinstance e Exception = true ->
  procesar_pdf_con_vision_y_gemini rt w path prompt
  = (t ++ [Close],
     Val (PStr ("Error general al procesar el PDF: " ++ str_exn rt e)))
  /\ llm_called (t ++ [Close]) = false.
Proof.
  intros Ho Hloop Hc He.
  assert (Hex : extraer rt doc = (t ++ [Close], Exc e)).
  { unfold extraer. rewrite (bind_val _ _ _ _ Hloop).
    unfold cerrar, emit, call, bind, ret. now rewrite Hc. }
  split.
  - unfold procesar_pdf_con_vision_y_gemini, cuerpo.
    rewrite (bind_val _ _ _ _ (abrir_val rt w path doc Ho)). simpl.
    rewrite (bind_exc _ _ _ _ Hex). simpl.
    rewrite (try_except_exc _ _ _ _ eq_refl).
    unfold on_exception. rewrite He. unfold ret. simpl.
    now rewrite app_nil_r.
  - pose proof (extraer_no_post rt doc) as H. now rewrite Hex in H.
Qed.

(** *** The order of the events of a run *)

Lemma recibir_trace rt o : trace (recibir rt o) = [].
Proof.
  unfold recibir. destruct o as [r|e].
  - destruct (raise_for_status r) as [u|es].
    + destruct (json r) as [rj|ej] eqn:Hj; [reflexivity|].
      unfold except_request, on_request_exception. rewrite Hj.
      destruct (isinstance ej RequestException); [|reflexivity].
      destruct (isinstance ej JSONDecodeError); reflexivity.
    + unfold except_request, on_request_exception.
      destruct (isinstance es RequestException); [|reflexivity].
      destruct (json r) as [d|ej]; [reflexivity|].
      destruct (isinstance ej JSONDecodeError); reflexivity.
  - unfold except_request, on_request_exception.
    destruct (isinstance e RequestException); reflexivity.
Qed.

Lemma procesar_respuesta_trace rt response_json :
  after_post (trace (procesar_respuesta rt response_json)) = true.
Proof.
  unfold procesar_respuesta, try_except, bind, call, ret, raise, print, emit,
    method_get, item_0, item_str, truthy.
  destruct response_json; simpl; try reflexivity.
  repeat (split_respuesta; simpl; auto).
Qed.

Lemma concluir_trace rt r : after_post (trace (concluir rt r)) = true.
Proof. destruct r; [reflexivity | apply procesar_respuesta_trace]. Qed.

Lemma on_exception_trace rt e : trace (on_exception rt e) = [].
Proof. unfold on_exception. now destruct (isinstance e Exception). Qed.

Lemma trace_procesar rt w path prompt :
  trace (procesar_pdf_con_vision_y_gemini rt w path prompt)
  = trace (cuerpo rt w path prompt).
Proof.
  unfold procesar_pdf_con_vision_y_gemini.
  destruct (cuerpo rt w path prompt) as [t [v|e]] eqn:Hc.
  - reflexivity.
  - rewrite (try_except_exc _ _ _ _ eq_refl), on_exception_trace. simpl.
    apply app_nil_r.
Qed.

Lemma analizar_trace rt w prompt textos :
  (texto_completo textos = "" /\ trace (analizar rt w prompt textos) = [])
  \/ (texto_completo textos <> ""
      /\ exists rest,
           trace (analizar rt w prompt textos)
           = Post GEMINI_API_URL (data prompt (texto_completo textos)) :: rest
           /\ after_post rest = true).
Proof.
  destruct (String.eqb (texto_completo textos) "") eqn:Htxt.
  - left. split; [now apply String.eqb_eq|]. unfold analizar. now rewrite Htxt.
  - right. apply String.eqb_neq in Htxt. split; [exact Htxt|].
    rewrite (analizar_text _ _ _ _ Htxt). unfold solicitar.
    rewrite bind_assoc. unfold emit. rewrite (bind_val _ _ _ _ eq_refl).
    eexists. split; [reflexivity|].
    pose proof (recibir_trace rt
      (requests_post w GEMINI_API_URL (data prompt (texto_completo textos))))
      as Hr.
    destruct (recibir rt _) as [t0 [r|e]]; simpl in Hr; subst t0.
    + rewrite (bind_val _ _ _ _ eq_refl). simpl. apply concluir_trace.
    + rewrite (bind_exc _ _ _ _ eq_refl). reflexivity.
Qed.

Lemma extraer_trace rt doc :
  exists prints,
    forallb is_print prints = true
    /\ ((exists e, extraer rt doc = (prints, Exc e))
        \/ (exists e, extraer rt doc = (prints ++ [Close], Exc e))
        \/ (exists textos, extraer rt doc = (prints ++ [Close], Val textos))).
Proof.
  pose proof (iterar_prints rt doc (seq 0 (page_count doc)) []) as Hp.
  unfold extraer.
  destruct (iterar rt doc (seq 0 (page_count doc)) []) as [t [textos|e]];
    simpl in Hp; exists t; (split; [exact Hp|]).
  - rewrite (bind_val _ _ _ _ eq_refl).
    unfold cerrar, emit, call, bind, ret. simpl.
    destruct (close doc) as [[]|e]; simpl.
    + right. right. now exists textos.
    + right. left. now exists e.
  - left. exists e. now rewrite (bind_exc _ _ _ _ eq_refl).
Qed.

(** The events of the body of the outer [try]. *)
Lemma cuerpo_trace rt w path prompt :
  exists prints,
    forallb is_print prints = true
    /\ (trace (cuerpo rt w path prompt) = prints
        \/ trace (cuerpo rt w path prompt) = prints ++ [Close]
        \/ exists doc textos rest,
             fitz_open w path = Val doc
             /\ extraer rt doc = (prints ++ [Close], Val textos)
             /\ texto_completo textos <> ""
             /\ trace (cuerpo rt w path prompt)
                = prints
                  ++ Close
                     :: Post GEMINI_API_URL (data prompt (texto_completo textos))
                     :: rest
             /\ after_post rest = true).
Proof.
  unfold cuerpo. destruct (fitz_open w path) as [doc|e] eqn:Ho.
  - rewrite (bind_val _ _ _ _ (abrir_val rt w path doc Ho)). simpl.
    destruct (extraer_trace rt doc) as (prints & Hp & [[e He]|[[e He]|[textos He]]]);
      exists prints; (split; [exact Hp|]).
    + left. now rewrite (bind_exc _ _ _ _ He).
    + right. left. now rewrite (bind_exc _ _ _ _ He).
    + rewrite (bind_val _ _ _ _ He). simpl.
      destruct (analizar_trace rt w prompt textos)
        as [[Hempty ->]|(Htxt & rest & -> & Hrest)].
      * right. left. now rewrite app_nil_r.
      * right. right. exists doc, textos, rest.
        repeat split; try assumption. now rewrite <- app_assoc.
  - exists []. split; [reflexivity|]. left.
    unfold abrir, try_except, bind, call, ret, raise. rewrite Ho. simpl.
    destruct (isinstance e FitzFileNotFoundError); [reflexivity|].
    destruct (fitz_fitz_exists w); [|reflexivity].
    destruct (isinstance e Exception); reflexivity.
Qed.

Lemma run_shape_prints (prints rest : list event) :
  forallb is_print prints = true ->
  run_shape (prints ++ rest) = run_shape rest.
Proof.
  induction prints as [|ev prints IH]; simpl; [reflexivity|].
  destruct ev; simpl; try discriminate. exact IH.
Qed.

Lemma filter_prints (f : event -> bool) (prints : list event) :
  (forall line, f (Print line) = false) ->
  forallb is_print prints = true ->
  filter f prints = [].
Proof.
  intros Hf. induction prints as [|ev prints IH]; simpl; [reflexivity|].
  destruct ev; simpl; try discriminate. now rewrite Hf.
Qed.

Lemma after_post_cases (t : list event) :
  after_post t = true -> t = [] \/ exists line, t = [Print line].
Proof.
  destruct t as [|[line| |url d] [|ev t]]; simpl; try discriminate; eauto.
Qed.

(** X6.  In every run the events come in this order: lines printed for
    pages, then at most one close of the document, then at most one request
    to the LLM endpoint, then at most one more printed line.  So the
    document is closed at most once, at most one request is sent, and none
    is sent before the document is closed. *)
Theorem run_keeps_order rt w path prompt :
  run_shape (trace (procesar_pdf_con_vision_y_gemini rt w path prompt)) = true
  /\ length (filter is_post
               (trace (procesar_pdf_con_vision_y_gemini rt w path prompt))) <= 1
  /\ length (filter is_close
               (trace (procesar_pdf_con_vision_y_gemini rt w path prompt))) <= 1.
Proof.
  rewrite trace_procesar.
  destruct (cuerpo_trace rt w path prompt)
    as (prints & Hp & [->|[->|(doc & textos & rest & _ & _ & _ & -> & Hrest)]]).
  - rewrite <- (app_nil_r prints) at 1.
    rewrite (run_shape_prints _ _ Hp),
      (filter_prints is_post _ (fun _ => eq_refl) Hp),
      (filter_prints is_close _ (fun _ => eq_refl) Hp).
    simpl. repeat split; lia.
  - rewrite (run_shape_prints _ _ Hp), !filter_app,
      (filter_prints is_post _ (fun _ => eq_refl) Hp),
      (filter_prints is_close _ (fun _ => eq_refl) Hp).
    simpl. repeat split; lia.
  - rewrite (run_shape_prints _ _ Hp), !filter_app,
      (filter_prints is_post _ (fun _ => eq_refl) Hp),
      (filter_prints is_close _ (fun _ => eq_refl) Hp).
    destruct (after_post_cases rest Hrest) as [->|[line ->]]; simpl;
      repeat split; lia.
Qed.

(** X7.  Whatever request a run sends goes to [GEMINI_API_URL], is sent by
    a run that opened the document and left the loop and the close with a
    non-empty aggregated text, and carries one message with one part whose
    text is the prompt immediately followed by that aggregated text. *)
Theorem request_carries_prompt_and_text rt w path prompt url body :
  In (Post url body) (trace (procesar_pdf_con_vision_y_gemini rt w path prompt)) ->
  url = GEMINI_API_URL
  /\ exists doc tr textos,
       fitz_open w path = Val doc
       /\ extraer rt doc = (tr, Val textos)
       /\ texto_completo textos <> ""
       /\ body
          = PDict [("contents",
                    PList [PDict [("parts",
                                   PList [PDict [("text",
                                                  PStr (prompt
                                                        ++ texto_completo textos))]])]])].
Proof.
  rewrite trace_procesar.
  assert (Hnot : forall prints, forallb is_print prints = true ->
                                ~ In (Post url body) prints).
  { intros prints Hp Hin. rewrite forallb_forall in Hp.
    specialize (Hp _ Hin). discriminate Hp. }
  destruct (cuerpo_trace rt w path prompt)
    as (prints & Hp & [->|[->|(doc & textos & rest & Ho & He & Htxt & -> & Hrest)]]);
    intro Hin.
  - now apply Hnot in Hin.
  - apply in_app_or in Hin as [Hin|[Hin|[]]]; [now apply Hnot in Hin|].
    discriminate Hin.
  - apply in_app_or in Hin as [Hin|[Hin|[Hin|Hin]]].
    + now apply Hnot in Hin.
    + discriminate Hin.
    + inversion Hin; subst. split; [reflexivity|].
      exists doc, (prints ++ [Close]), textos. repeat split; assumption.
    + destruct (after_post_cases rest Hrest) as [->|[line ->]];
        [destruct Hin | destruct Hin as [Hin|[]]; discriminate Hin].
Qed.

(** *** What can leave the function *)

Lemma escaping_exception rt w path prompt e :
  result (procesar_pdf_con_vision_y_gemini rt w path prompt) = Exc e ->
  isinstance e Exception = false.
Proof.
  unfold procesar_pdf_con_vision_y_gemini. rewrite result_try_except.
  destruct (result (cuerpo rt w path prompt)) as [v|e0]; [discriminate|].
  unfold on_exception. destruct (isinstance e0 Exception) eqn:He0;
    [discriminate|].
  simpl. intro H. now inversion H; subst.
Qed.

(** X15.  An exception leaves the function only if it does not derive from
    [Exception], and then it is one that a library call raised: the
    function raises none of its own. *)
Theorem only_interrupts_escape rt w path prompt e :
  result (procesar_pdf_con_vision_y_gemini rt w path prompt) = Exc e ->
  isinstance e Exception = false
  /\ exists c msg, e = Lib c msg.
Proof.
  intro H. apply escaping_exception in H. split; [exact H|].
  destruct e as [c msg|f]; [now exists c, msg|].
  destruct f; discriminate H.
Qed.

(** *** The request and its failures *)

Lemma JSONDecodeError_is_Exception (e : exn) :
  isinstance e JSONDecodeError = true -> isinstance e Exception = true.
Proof.
  destruct e as [c msg|f]; [destruct c | destruct f];
    simpl; intro H; try discriminate H; reflexivity.
Qed.

(** X8.  When the status check raises a [RequestException] [e] and the body
    of the response does not decode ([json()] raises a
    [json.JSONDecodeError]), the function returns the request error string
    with the text of [e], the status code and the raw text of the
    response. *)
Theorem non_json_error_body_is_quoted rt w path prompt r e ej :
  solicita rt w path prompt (Val r) ->
  raise_for_status r = Exc e ->
  isinstance e RequestException = true ->
  json r = Exc ej ->
  isinstance ej JSONDecodeError = true ->
  result (procesar_pdf_con_vision_y_gemini rt w path prompt)
  = Val (PStr ("Error en la solicitud a la API de Gemini: " ++ str_exn rt e ++ nl
               ++ "Código de estado: " ++ format_value rt (PInt (status_code r))
               ++ nl ++ "Respuesta (no JSON): " ++ text r)).
Proof.
  intros Hs Hst He Hj Hej. rewrite (result_solicita _ _ _ _ _ Hs).
  unfold recibir, except_request, on_request_exception.
  rewrite Hst, He, Hj, Hej. reflexivity.
Qed.

(** X9.  When the status check passes but the body does not decode, what
    the function returns depends on the class of the decode error [ej]: if
    it is also a [RequestException] (the class of the requests library), the
    handler of line 93 takes it, decodes again, and returns the request
    error string with the status code and the raw text; if it is not (plain
    [json.JSONDecodeError]), it reaches line 117 and the function returns
    the general error string. *)
Theorem undecodable_body_depends_on_class rt w path prompt r ej :
  solicita rt w path prompt (Val r) ->
  raise_for_status r = Val tt ->
  json r = Exc ej ->
  isinstance ej JSONDecodeError = true ->
  result (procesar_pdf_con_vision_y_gemini rt w path prompt)
  = Val (PStr
      (if isinstance ej RequestException then
         "Error en la solicitud a la API de Gemini: " ++ str_exn rt ej ++ nl
         ++ "Código de estado: " ++ format_value rt (PInt (status_code r))
         ++ nl ++ "Respuesta (no JSON): " ++ text r
       else "Error general al procesar el PDF: " ++ str_exn rt ej)).
Proof.
  intros Hs Hst Hj Hej. rewrite (result_solicita _ _ _ _ _ Hs).
  unfold recibir, except_request, on_request_exception.
  rewrite Hst, Hj.
  destruct (isinstance ej RequestException).
  - rewrite Hej. reflexivity.
  - rewrite result_try_except, result_bind. simpl.
    unfold on_exception. now rewrite (JSONDecodeError_is_Exception _ Hej).
Qed.

(** X10.  When [requests.post] raises an exception that derives from
    [Exception] but not from [RequestException], no handler of the request
    takes it: the function returns the general error string with the text of
    that exception. *)
Theorem other_post_failure_is_general_error rt w path prompt e :
  solicita rt w path prompt (Exc e) ->
  isinstance e RequestException = false ->
  isinstance e Exception = true ->
  result (procesar_pdf_con_vision_y_gemini rt w path prompt)
  = Val (PStr ("Error general al procesar el PDF: " ++ str_exn rt e)).
Proof.
  intros Hs Hr He. rewrite (result_solicita _ _ _ _ _ Hs).
  unfold recibir, except_request. rewrite Hr.
  rewrite result_try_except, result_bind. simpl.
  unfold on_exception. now rewrite He.
Qed.

(** *** The shape of the response *)

(** X11.  When the body has a ['candidates'] key whose value tests false
    (an empty list, [null], an empty string or object, zero, [false]), the
    function returns the "sin 'candidates'" string, as when the key is
    missing. *)
Theorem empty_candidates_is_reported rt w path prompt top c :
  responde rt w path prompt (PDict top) ->
  dict_lookup "candidates" top = Some c ->
  truthy c = false ->
  result (procesar_pdf_con_vision_y_gemini rt w path prompt)
  = Val (PStr "Error: Respuesta de Gemini sin 'candidates'.").
Proof.
  intros Hr Hc Ht. rewrite (result_responde _ _ _ _ _ Hr).
  unfold procesar_respuesta, try_except, bind, call, ret, method_get.
  rewrite Hc. simpl. rewrite Ht. reflexivity.
Qed.

(** X12.  When the content of the first candidate has a ['parts'] key whose
    value tests false (an empty list, [null], ...), the function returns the
    "sin 'parts'" string, as when the key is missing. *)
Theorem empty_parts_is_reported rt w path prompt top c0 cs content p :
  responde rt w path prompt (PDict top) ->
  dict_lookup "candidates" top = Some (PList (PDict c0 :: cs)) ->
  dict_lookup "content" c0 = Some (PDict content) ->
  dict_lookup "parts" content = Some p ->
  truthy p = false ->
  result (procesar_pdf_con_vision_y_gemini rt w path prompt)
  = Val (PStr "Error: Respuesta de Gemini sin 'parts'.").
Proof.
  intros Hr Hc Hcont Hp Ht. rewrite (result_responde _ _ _ _ _ Hr).
  unfold procesar_respuesta, try_except, bind, call, ret, method_get, item_0,
    item_str.
  rewrite Hc. simpl. rewrite Hcont. simpl. rewrite Hp. simpl. rewrite Ht.
  reflexivity.
Qed.

(** *** The aggregated text *)

(** X18.  The aggregated text loses nothing: every text the loop kept
    occurs in it. *)
Theorem aggregated_text_contains_each_text (textos : list string) (t : string) :
  In t textos -> contiene (texto_completo textos) t.
Proof.
  unfold texto_completo. induction textos as [|x rest IH]; intro Hin;
    [destruct Hin|].
  destruct rest as [|y rest].
  - destruct Hin as [->|[]]. apply contiene_refl.
  - destruct Hin as [->|Hin].
    + change (str_join (nl ++ nl) (t :: y :: rest))
        with (t ++ (nl ++ nl) ++ str_join (nl ++ nl) (y :: rest))%string.
      apply contiene_app_l, contiene_refl.
    + change (str_join (nl ++ nl) (x :: y :: rest))
        with (x ++ (nl ++ nl) ++ str_join (nl ++ nl) (y :: rest))%string.
      apply contiene_app_r, contiene_app_r, IH, Hin.
Qed.

(** *** The module *)

Import Script.

(** X16.  The module raises its [ValueError] exactly when the variable
    [GEMINI_API_KEY] is not set or is empty, and then before anything else
    happens (no document is opened, nothing is printed); it is the only
    exception deriving from [Exception] that running the module can end
    with. *)
Theorem module_needs_api_key rt key w :
  ((key = None \/ key = Some "") <-> main rt key w = ([], Exc falta_clave))
  /\ (forall e, result (main rt key w) = Exc e ->
                isinstance e Exception = true -> e = falta_clave).
Proof.
  assert (Hset : forall k, k <> "" -> forall e,
            result (main rt (Some k) w) = Exc e ->
            isinstance e Exception = false).
  { intros k Hk e. unfold main. simpl. rewrite (eqb_empty_false _ Hk). simpl.
    rewrite result_bind.
    destruct (result (procesar_pdf_con_vision_y_gemini rt (w k) pdf_path
                        prompt_personalizado)) as [v|e0] eqn:Hrun.
    - discriminate.
    - intro H. inversion H; subst. eapply escaping_exception. exact Hrun. }
  split; [split|].
  - intros [->| ->]; reflexivity.
  - destruct key as [k|]; [|now left]. destruct (String.eqb k "") eqn:Hk.
    + apply String.eqb_eq in Hk. subst. now right.
    + apply String.eqb_neq in Hk. intro H.
      assert (Hres : result (main rt (Some k) w) = Exc falta_clave)
        by now rewrite H.
      apply (Hset k Hk) in Hres. discriminate Hres.
  - intros e Hres He. destruct key as [k|]; [|now inversion Hres].
    destruct (String.eqb k "") eqn:Hk.
    + apply String.eqb_eq in Hk. subst. now inversion Hres.
    + apply String.eqb_neq in Hk. apply (Hset k Hk) in Hres. congruence.
Qed.

(** X17.  With a key set, and when no library call raises outside
    [Exception], running the module ends normally, and the last thing it
    does is print what the function returned for ["orestes.pdf"] and the
    prompt of line 122. *)
Theorem module_prints_the_result rt k w :
  k <> "" ->
  sin_interrupciones (w k) pdf_path ->
  exists t v,
    procesar_pdf_con_vision_y_gemini rt (w k) pdf_path prompt_personalizado
    = (t, Val v)
    /\ main rt (Some k) w = (t ++ [Print (format_value rt v)], Val tt).
Proof.
  intros Hk Hw.
  pose proof (cuerpo_result rt (w k) pdf_path prompt_personalizado Hw) as Hb.
  destruct (procesar_pdf_con_vision_y_gemini rt (w k) pdf_path
              prompt_personalizado) as [t [v|e]] eqn:Hrun.
  - exists t, v. split; [reflexivity|].
    unfold main. simpl. rewrite (eqb_empty_false _ Hk). simpl.
    rewrite Hrun. now rewrite (bind_val _ _ _ _ eq_refl).
  - exfalso.
    assert (Hres : result (procesar_pdf_con_vision_y_gemini rt (w k) pdf_path
                             prompt_personalizado) = Exc e) by now rewrite Hrun.
    pose proof (escaping_exception _ _ _ _ _ Hres) as Hno.
    unfold procesar_pdf_con_vision_y_gemini in Hres.
    rewrite result_try_except in Hres.
    destruct (result (cuerpo rt (w k) pdf_path prompt_personalizado))
      as [v0|e0]; [discriminate|].
    simpl in Hb. unfold on_exception in Hres. rewrite Hb in Hres.
    discriminate Hres.
Qed.

(* ================================================================== *)
(** ** These paths at concrete runs *)
(* ================================================================== *)

(** X1 on a path with no file. *)
Lemma missing_file_is_reported_witness :
  procesar_pdf_con_vision_y_gemini cpython w_missing pdf prompt
  = ([], Val (PStr "Error: No se encontró el archivo PDF en la ruta: orestes.pdf")).
Proof.
  exact (missing_file_is_reported cpython w_missing pdf prompt e_missing
           eq_refl eq_refl).
Defined.

(** X2 on a file that is no document, with and without [fitz.fitz]. *)
Lemma open_failure_is_reported_witness :
  procesar_pdf_con_vision_y_gemini cpython w_broken pdf prompt
  = ([], Val (PStr "Error al abrir el PDF: Failed to open file 'orestes.pdf'."))
  /\ procesar_pdf_con_vision_y_gemini cpython w_broken_no_fitz_fitz pdf prompt
     = ([], Val (PStr ("Error general al procesar el PDF: "
                       ++ "module 'fitz' has no attribute 'fitz'"))).
Proof.
  split.
  - exact (open_failure_is_reported cpython w_broken pdf prompt e_broken
             eq_refl eq_refl).
  - exact (open_failure_is_reported cpython w_broken_no_fitz_fitz pdf prompt
             e_broken eq_refl eq_refl).
Defined.

(** X3 on the five-page document. *)
Lemma loop_keeps_texts_in_page_order_witness :
  iterar cpython doc_mixed (seq 0 5) []
  = ([Print "Advertencia: No se pudo extraer texto de la página 2.";
      Print "Error al procesar la página 3: cannot render page";
      Print "Advertencia: Error en OCR de la página 4: Bad image data."],
     Val ["uno"; "cinco"]).
Proof.
  refine (proj1 (loop_keeps_texts_in_page_order cpython doc_mixed (seq 0 5) [] _)).
  intros n Hn. simpl in Hn.
  destruct Hn as [<-|[<-|[<-|[<-|[<-|[]]]]]]; simpl; try exact I; reflexivity.
Defined.

(** X4 on an interrupt during the second page. *)
Lemma interrupt_leaves_the_function_witness :
  procesar_pdf_con_vision_y_gemini cpython w_interrupt_second pdf prompt
  = ([], Exc e_ctrl_c).
Proof.
  refine (proj1 (interrupt_leaves_the_function cpython w_interrupt_second pdf
                   prompt _ 1 e_ctrl_c [] ["uno"] eq_refl _ eq_refl eq_refl
                   eq_refl)).
  simpl. lia.
Defined.

(** X5 on a document whose close fails. *)
Lemma close_failure_is_general_error_witness :
  procesar_pdf_con_vision_y_gemini cpython w_close_fails pdf prompt
  = ([Close], Val (PStr "Error general al procesar el PDF: document closed")).
Proof.
  exact (proj1 (close_failure_is_general_error cpython w_close_fails pdf prompt
                  doc_close_fails [] ["uno"] e_close
                  eq_refl eq_refl eq_refl eq_refl)).
Defined.

(** X7 on the run that gets the answer. *)
Lemma request_carries_prompt_and_text_witness :
  GEMINI_API_URL = GEMINI_API_URL
  /\ exists doc tr textos,
       fitz_open w_answer pdf = Val doc
       /\ extraer cpython doc = (tr, Val textos)
       /\ texto_completo textos <> ""
       /\ data prompt (texto_completo ["ATIVO TOTAL 1.234"; "31/12/2023"])
          = PDict [("contents",
                    PList [PDict [("parts",
                                   PList [PDict [("text",
                                                  PStr (prompt
                                                        ++ texto_completo textos))]])]])].
Proof.
  apply (request_carries_prompt_and_text cpython w_answer pdf prompt).
  simpl. right. left. reflexivity.
Defined.

(** X8 on the 502 answer. *)
Lemma non_json_error_body_is_quoted_witness :
  result (procesar_pdf_con_vision_y_gemini cpython w_502 pdf prompt)
  = Val (PStr ("Error en la solicitud a la API de Gemini: "
               ++ "502 Server Error: Bad Gateway for url" ++ nl
               ++ "Código de estado: 502" ++ nl
               ++ "Respuesta (no JSON): <html>Bad Gateway</html>")).
Proof.
  apply (non_json_error_body_is_quoted cpython w_502 pdf prompt r_502 e_502
           e_decode); [run_solicita | reflexivity ..].
Defined.

(** X9 on a 200 answer that does not decode, with the decode error of the
    requests library and with the one of the json module. *)
Lemma undecodable_body_depends_on_class_witness :
  result (procesar_pdf_con_vision_y_gemini cpython w_200_html pdf prompt)
  = Val (PStr ("Error en la solicitud a la API de Gemini: "
               ++ "Expecting value: line 1 column 1 (char 0)" ++ nl
               ++ "Código de estado: 200" ++ nl
               ++ "Respuesta (no JSON): <html></html>"))
  /\ result (procesar_pdf_con_vision_y_gemini cpython w_200_html_plain pdf prompt)
     = Val (PStr ("Error general al procesar el PDF: "
                  ++ "Expecting value: line 1 column 1 (char 0)")).
Proof.
  split.
  - apply (undecodable_body_depends_on_class cpython w_200_html pdf prompt
             (r_200_html e_decode) e_decode); [run_solicita | reflexivity ..].
  - apply (undecodable_body_depends_on_class cpython w_200_html_plain pdf prompt
             (r_200_html e_decode_plain) e_decode_plain);
      [run_solicita | reflexivity ..].
Defined.

(** X10 on a missing certificate bundle. *)
Lemma other_post_failure_is_general_error_witness :
  result (procesar_pdf_con_vision_y_gemini cpython w_no_ca pdf prompt)
  = Val (PStr ("Error general al procesar el PDF: "
               ++ "Could not find a suitable TLS CA certificate bundle")).
Proof.
  apply (other_post_failure_is_general_error cpython w_no_ca pdf prompt
           e_ca_bundle); [run_solicita | reflexivity ..].
Defined.

(** X11 on an empty list of candidates. *)
Lemma empty_candidates_is_reported_witness :
  result (procesar_pdf_con_vision_y_gemini cpython w_empty_candidates pdf prompt)
  = Val (PStr "Error: Respuesta de Gemini sin 'candidates'.").
Proof.
  eapply (empty_candidates_is_reported cpython w_empty_candidates pdf prompt);
    [run_responde | reflexivity ..].
Defined.

(** X12 on an empty list of parts. *)
Lemma empty_parts_is_reported_witness :
  result (procesar_pdf_con_vision_y_gemini cpython w_empty_parts pdf prompt)
  = Val (PStr "Error: Respuesta de Gemini sin 'parts'.").
Proof.
  eapply (empty_parts_is_reported cpython w_empty_parts pdf prompt);
    [run_responde | reflexivity ..].
Defined.

(** X13 on a candidate that only carries a finish reason. *)
Lemma missing_content_is_dumped_witness :
  result (procesar_pdf_con_vision_y_gemini cpython w_no_content pdf prompt)
  = Val (PStr ("Respuesta completa de Gemini (para depuración):" ++ nl
               ++ "{'candidates': [{'finishReason': 'SAFETY'}]}")).
Proof.
  apply (missing_content_is_dumped cpython w_no_content pdf prompt
           [("candidates", PList [PDict [("finishReason", PStr "SAFETY")]])]
           [("finishReason", PStr "SAFETY")] []);
    [run_responde | reflexivity ..].
Defined.

(** X14 on a body that is an array. *)
Lemma non_object_body_is_general_error_witness :
  result (procesar_pdf_con_vision_y_gemini cpython w_array pdf prompt)
  = Val (PStr ("Error general al procesar el PDF: "
               ++ "'list' object has no attribute 'get'")).
Proof.
  apply (non_object_body_is_general_error cpython w_array pdf prompt (PList []));
    [run_responde | intros top H; discriminate H].
Defined.

(** X15 on the interrupted run. *)
Lemma only_interrupts_escape_witness :
  isinstance (Lib KeyboardInterrupt "") Exception = false
  /\ exists c msg, Lib KeyboardInterrupt "" = Lib c msg.
Proof.
  exact (only_interrupts_escape cpython w_interrupt pdf prompt
           (Lib KeyboardInterrupt "") eq_refl).
Defined.

(** X18 on the two page texts. *)
Lemma aggregated_text_contains_each_text_witness :
  contiene (texto_completo ["ATIVO TOTAL 1.234"; "31/12/2023"]) "31/12/2023".
Proof.
  apply (aggregated_text_contains_each_text
           ["ATIVO TOTAL 1.234"; "31/12/2023"] "31/12/2023").
  simpl. right. left. reflexivity.
Defined.

(** X17 on the run that gets the answer. *)
Lemma module_prints_the_result_witness :
  exists t v,
    procesar_pdf_con_vision_y_gemini cpython w_answer pdf_path prompt_personalizado
    = (t, Val v)
    /\ main cpython (Some "clave") (fun _ => w_answer)
       = (t ++ [Print (format_value cpython v)], Val tt).
Proof.
  apply (module_prints_the_result cpython "clave" (fun _ => w_answer)).
  - discriminate.
  - split; [exact I |].
    intros doc Hdoc. inversion Hdoc; subst. split; [|split].
    + intro n. destruct n as [|[|n]]; simpl; try exact I.
      destruct n; reflexivity.
    + exact I.
    + intro body. split; [exact I |]. intros r Hr. inversion Hr; subst.
      split; exact I.
Defined.
